(** * face-match-api: the [/compare-faces] endpoint

    A shallow embedding of the two [index.js] variants of the service
    (variant A: fields [image1]/[image2], port 9857; variant B: fields
    [image1Path]/[image2Path], port 3000) and the properties of its
    request handling.

    JavaScript numbers are IEEE-754 binary64 values: they are modelled by
    Rocq's primitive floats, whose comparison is the one of the language.
    Everything done by [face-api.js], [sharp], [canvas], [node-fetch] and
    [fs] is a field of the [Platform] class; the code of the repository
    is written over it in a small state-and-exception monad that also
    records which of those external operations were started.  A response
    is the status and the object handed to [res.json]; what the handlers
    print with [console.log] is left out. *)

From Stdlib Require Import Floats ZArith Lia List String Ascii Bool.
From stdpp Require Import gmap strings.
Import ListNotations.

Local Open Scope string_scope.
Local Open Scope list_scope.

(** ** Numbers *)

Module JSNumber.

(** [Infinity], and the literal [0.6] (rounded to binary64, as the
    JavaScript parser does). *)
Definition Infinity : float := PrimFloat.infinity.
Definition default_threshold : float := 0x1.3333333333333p-1%float.
Definition zero : float := 0%float.

(** [x < y] on numbers. *)
Definition lt (x y : float) : bool := PrimFloat.ltb x y.
(** [x <= y] on numbers. *)
Definition le (x y : float) : bool := PrimFloat.leb x y.
(** [x == y] on numbers ([-0 == 0], [NaN != NaN]). *)
Definition eq (x y : float) : bool := PrimFloat.eqb x y.

(** [array.length] as a number. *)
Definition of_nat (n : nat) : float :=
  PrimFloat.of_uint63 (Uint63.of_Z (Z.of_nat n)).

End JSNumber.

(** ** Values of a parsed request body *)

#[local] Set Warnings "-register-all".

Inductive JsValue : Type :=
| JUndefined
| JNull
| JBool (b : bool)
| JNum (x : float)
| JStr (s : string)
| JArr (items : list JsValue)
| JObj (props : list (string * JsValue)).

(** [ToBoolean]: the falsy values are [undefined], [null], [false], [0],
    [-0], [NaN] and the empty string. *)
Definition ToBoolean (v : JsValue) : bool :=
  match v with
  | JUndefined | JNull => false
  | JBool b => b
  | JNum x => negb (JSNumber.eq x JSNumber.zero || PrimFloat.is_nan x)
  | JStr s => negb (String.eqb s "")
  | JArr _ | JObj _ => true
  end.

(** Reading a property of the body object; an absent property reads as
    [undefined]. *)
Definition prop (body : gmap string JsValue) (name : string) : JsValue :=
  match body !! name with
  | Some v => v
  | None => JUndefined
  end.

(** [{ ..., threshold = 0.6 } = req.body]: a destructuring default is
    used exactly when the property reads as [undefined]. *)
Definition with_default (v : JsValue) (d : JsValue) : JsValue :=
  match v with
  | JUndefined => d
  | _ => v
  end.

(** ** Errors and outcomes *)

(** Of a thrown [Error] the code only observes [.message]. *)
Record JsError : Type := { message : string }.

Inductive Outcome (A : Type) : Type :=
| Ok (a : A)
| Throw (e : JsError).
Arguments Ok {A} a.
Arguments Throw {A} e.

(** ** HTTP responses *)

(** [res.status(code).json(payload)]; [res.json(payload)] alone has
    status 200. *)
Record Response : Type := { status : Z; payload : JsValue }.

Definition field (name : string) (v : JsValue) : JsValue :=
  match v with
  | JObj props =>
      match List.find (fun kv => String.eqb (fst kv) name) props with
      | Some kv => snd kv
      | None => JUndefined
      end
  | _ => JUndefined
  end.

(** ** The platform *)

Definition Buffer : Type := list Byte.byte.

(** The [Response] of [node-fetch]: [ok], [statusText] and the result of
    awaiting [arrayBuffer()]. *)
Record FetchResponse : Type :=
  { ok : bool; statusText : string; arrayBuffer : Outcome Buffer }.

(** A [FaceMatch] of face-api.js. *)
Record FaceMatch : Type := { label : string; distance : float }.

Class Platform : Type :=
  { (** the network and the filesystem *)
    World : Type;
    fetch : string -> World -> Outcome FetchResponse * World;
    readFileSync : string -> World -> Outcome Buffer * World;
    path_resolve : string -> string;
    (** [Buffer.from(s, 'base64')] *)
    Buffer_from_base64 : string -> Buffer;
    (** [sharp(buffer).resize(512).toBuffer()] *)
    sharp_resize : Buffer -> Outcome Buffer;
    (** [img = new Image(); img.src = image] *)
    Image : Type;
    Image_src : Buffer -> Outcome Image;
    (** [faceapi.detectAllFaces(img).withFaceLandmarks().withFaceDescriptors()] *)
    Detection : Type;
    Descriptor : Type;
    descriptor : Detection -> Descriptor;
    detectAllFaces : Image -> Outcome (list Detection);
    (** [new faceapi.FaceMatcher(detections)] and [findBestMatch] *)
    FaceMatcher : Type;
    FaceMatcher_new : list Detection -> FaceMatcher;
    findBestMatch : FaceMatcher -> Descriptor -> FaceMatch;
    (** [ToNumber] of the language on strings, and [ToPrimitive] of
        arrays and objects (their [toString()]) *)
    StringToNumber : string -> float;
    ObjectToString : JsValue -> string }.

(** [ToPrimitive] on an object or an array, as [<] applies it to its
    right operand.  No value of a parsed body is callable.  On an object
    [valueOf] is not callable or returns the object itself, and
    [toString] is [Object.prototype.toString] unless the object has an
    own property of that name, which is then not callable: the
    conversion throws a [TypeError].  On an array [toString] joins the
    elements, converting each one that is not [null] or [undefined] to a
    string, and throws when one of these conversions does. *)
Definition has_own (name : string) (props : list (string * JsValue)) : bool :=
  existsb (fun kv => String.eqb (fst kv) name) props.

Fixpoint to_primitive_throws (v : JsValue) : bool :=
  match v with
  | JObj props => has_own "toString" props
  | JArr items => existsb to_primitive_throws items
  | _ => false
  end.

Definition primitive_TypeError : JsError :=
  {| message := "Cannot convert object to primitive value" |}.

(** [ToNumber] on the values a body can hold; [ObjectToString] is the
    string an object or an array converts to when the conversion does
    not throw. *)
Definition ToNumber `{Platform} (v : JsValue) : Outcome float :=
  match v with
  | JUndefined => Ok PrimFloat.nan
  | JNull => Ok JSNumber.zero
  | JBool b => Ok (if b then 1%float else JSNumber.zero)
  | JNum x => Ok x
  | JStr s => Ok (StringToNumber s)
  | JArr _ | JObj _ =>
      if to_primitive_throws v then Throw primitive_TypeError
      else Ok (StringToNumber (ObjectToString v))
  end.

(** [x < v] for a number [x]: the right operand is converted to a
    number, which may throw, and the two are compared. *)
Definition js_lt `{Platform} (x : float) (v : JsValue) : Outcome bool :=
  match ToNumber v with
  | Ok y => Ok (JSNumber.lt x y)
  | Throw e => Throw e
  end.

(** ** The monad of the request handler *)

Section Monad.
Context `{Platform}.

(** The external operations a request can start, in the order they
    are started. *)
Inductive Event : Type :=
| EvLoadImage (imageSource : JsValue)
| EvFetch (url : string)
| EvReadFile (path : string)
| EvDecode (buffer : Buffer)
| EvDetect (img : Image)
| EvFaceMatcher (detections : list Detection)
| EvFindBestMatch (query : Descriptor).

Record St : Type := { world : World; trace : list Event }.

Definition M (A : Type) : Type := St -> Outcome A * St.

Definition ret {A} (a : A) : M A := fun st => (Ok a, st).

Definition bind {A B} (m : M A) (k : A -> M B) : M B :=
  fun st =>
    match m st with
    | (Ok a, st') => k a st'
    | (Throw e, st') => (Throw e, st')
    end.

Definition throw {A} (msg : string) : M A :=
  fun st => (Throw {| message := msg |}, st).

(** [try { body } catch (error) { handler }] *)
Definition try_catch {A} (body : M A) (handler : JsError -> M A) : M A :=
  fun st =>
    match body st with
    | (Ok a, st') => (Ok a, st')
    | (Throw e, st') => handler e st'
    end.

Definition emit (ev : Event) : M unit :=
  fun st => (Ok tt, {| world := world st; trace := trace st ++ [ev] |}).

(** An operation on the network or the filesystem. *)
Definition io {A} (op : World -> Outcome A * World) : M A :=
  fun st =>
    let (r, w) := op (world st) in
    (r, {| world := w; trace := trace st |}).

(** A library call that returns or throws. *)
Definition call {A} (r : Outcome A) : M A := fun st => (r, st).

(** The state after the events [evs] were recorded. *)
Definition record (evs : list Event) (st : St) : St :=
  {| world := world st; trace := trace st ++ evs |}.

End Monad.

Declare Scope js_scope.
Delimit Scope js_scope with js.
Notation "x <- m ;; k" := (bind m (fun x => k))
  (at level 100, m at next level, right associativity) : js_scope.
Notation "m ;;; k" := (bind m (fun _ => k))
  (at level 100, right associativity) : js_scope.
Local Open Scope js_scope.

(** ** Image resolution *)

Definition string_drop (n : nat) (s : string) : string :=
  String.substring n (String.length s - n) s.

(** [s.replace(/^data:image\/(png|jpeg|jpg);base64,/, '')] *)
Definition strip_data_header (s : string) : string :=
  if String.prefix "data:image/png;base64," s
  then string_drop (String.length "data:image/png;base64,") s
  else if String.prefix "data:image/jpeg;base64," s
  then string_drop (String.length "data:image/jpeg;base64,") s
  else if String.prefix "data:image/jpg;base64," s
  then string_drop (String.length "data:image/jpg;base64,") s
  else s.

Section Resolver.
Context `{Platform}.

(** The end of both [loadImage] functions: resize with [sharp], then
    load the result into a canvas [Image]. *)
Definition decodeImage (buffer : Buffer) : M Image :=
  emit (EvDecode buffer) ;;;
  image <- call (sharp_resize buffer) ;;
  img <- call (Image_src image) ;;
  ret img.

(** The receiver of [.startsWith]: on a value that is not a string the
    call throws a [TypeError]. *)
Definition startsWith_receiver (name : string) (v : JsValue) : M string :=
  match v with
  | JStr s => ret s
  | _ => throw (name ++ ".startsWith is not a function")
  end.

End Resolver.

Module VariantA.
Section Code.
Context `{Platform}.

Definition loadImage (imageSource : JsValue) : M Image :=
  emit (EvLoadImage imageSource) ;;;
  s <- startsWith_receiver "imageSource" imageSource ;;
  buffer <-
    (if String.prefix "data:image" s then
       let base64Data := strip_data_header s in
       ret (Buffer_from_base64 base64Data)
     else if String.prefix "http://" s || String.prefix "https://" s then
       emit (EvFetch s) ;;;
       response <- io (fetch s) ;;
       if negb (ok response) then
         throw ("Failed to fetch image from URL: " ++ statusText response)
       else
         arrayBuffer <- call (arrayBuffer response) ;;
         ret arrayBuffer
     else
       try_catch
         (emit (EvReadFile (path_resolve s)) ;;;
          io (readFileSync (path_resolve s)))
         (fun error =>
            throw ("Failed to read local image file: " ++ message error))) ;;
  decodeImage buffer.

End Code.
End VariantA.

Module VariantB.
Section Code.
Context `{Platform}.

Definition loadImage (imagePath : JsValue) : M Image :=
  emit (EvLoadImage imagePath) ;;;
  s <- startsWith_receiver "imagePath" imagePath ;;
  buffer <-
    (if String.prefix "http://" s || String.prefix "https://" s then
       emit (EvFetch s) ;;;
       response <- io (fetch s) ;;
       arrayBuffer <- call (arrayBuffer response) ;;
       ret arrayBuffer
     else
       emit (EvReadFile (path_resolve s)) ;;;
       io (readFileSync (path_resolve s))) ;;
  decodeImage buffer.

End Code.
End VariantB.

(** ** The comparison endpoint *)

Inductive Variant : Type := A | B.

Section Endpoint.
Context `{Platform}.

Definition loadImage (v : Variant) : JsValue -> M Image :=
  match v with
  | A => VariantA.loadImage
  | B => VariantB.loadImage
  end.

(** The names of the two image fields of the body. *)
Definition image1_field (v : Variant) : string :=
  match v with A => "image1" | B => "image1Path" end.
Definition image2_field (v : Variant) : string :=
  match v with A => "image2" | B => "image2Path" end.

Definition json (code : Z) (props : list (string * JsValue)) : Response :=
  {| status := code; payload := JObj props |}.

Definition models_loading_response : Response :=
  json 503
    [("error", JStr "Models are still loading. Please try again shortly.")].

Definition missing_image_response (v : Variant) : Response :=
  json 400
    [("error",
      JStr match v with
           | A => "Please provide both image1 and image2 in the request body. These can be URLs, local paths, or Base64 strings."
           | B => "Please provide both image1Path and image2Path in the request body."
           end)].

Definition no_face_response : Response :=
  json 400
    [("match", JBool false);
     ("message", JStr "Could not detect faces in one or both images.")].

Definition internal_error_response (error : JsError) : Response :=
  json 500
    [("error",
      JStr ("Internal server error during face comparison: "
            ++ message error))].

Definition detect (img : Image) : M (list Detection) :=
  emit (EvDetect img) ;;;
  call (detectAllFaces img).

(** The state of the loop over [detections1]: [bestMatch] (initially
    [null]) and [bestDistance] (initially [Infinity]). *)
Definition Best : Type := (option FaceMatch * float)%type.

Definition best_init : Best := (None, JSNumber.Infinity).

(** The callback of [detections1.forEach], without its event. *)
Definition best_step (faceMatcher : FaceMatcher) (best : Best)
    (detection1 : Detection) : Best :=
  let match_ := findBestMatch faceMatcher (descriptor detection1) in
  if JSNumber.lt (distance match_) (snd best)
  then (Some match_, distance match_)
  else best.

Fixpoint forEach_best (faceMatcher : FaceMatcher)
    (detections1 : list Detection) (best : Best) : M Best :=
  match detections1 with
  | [] => ret best
  | detection1 :: rest =>
      emit (EvFindBestMatch (descriptor detection1)) ;;;
      forEach_best faceMatcher rest (best_step faceMatcher best detection1)
  end.

Definition match_response (isMatch : bool) (bestDistance : float)
    (threshold : JsValue) (n1 n2 : nat) : Response :=
  json 200
    [("match", JBool isMatch);
     ("distance", JNum bestDistance);
     ("threshold", threshold);
     ("message",
      JStr (if isMatch then "Faces match!" else "Faces do not match."));
     ("details",
      JObj [("facesDetectedImage1", JNum (JSNumber.of_nat n1));
            ("facesDetectedImage2", JNum (JSNumber.of_nat n2))])].

(** [app.post('/compare-faces', async (req, res) => ...)] on the
    properties of a [req.body] that can be destructured; the two
    variants differ in the names of the image fields, in the text of
    the missing-field error and in [loadImage]. *)
Definition compare_faces (v : Variant) (modelsLoaded : bool)
    (body : gmap string JsValue) : M Response :=
  if negb modelsLoaded then ret models_loading_response
  else
    let image1 := prop body (image1_field v) in
    let image2 := prop body (image2_field v) in
    let threshold :=
      with_default (prop body "threshold") (JNum JSNumber.default_threshold) in
    if negb (ToBoolean image1) || negb (ToBoolean image2)
    then ret (missing_image_response v)
    else
      try_catch
        (img1 <- loadImage v image1 ;;
         img2 <- loadImage v image2 ;;
         detections1 <- detect img1 ;;
         detections2 <- detect img2 ;;
         if (length detections1 =? 0)%nat || (length detections2 =? 0)%nat
         then ret no_face_response
         else
           emit (EvFaceMatcher detections2) ;;;
           let faceMatcher := FaceMatcher_new detections2 in
           best <- forEach_best faceMatcher detections1 best_init ;;
           let bestDistance := snd best in
           isMatch <- call (js_lt bestDistance threshold) ;;
           ret (match_response isMatch bestDistance threshold
                  (length detections1) (length detections2)))
        (fun error => ret (internal_error_response error)).

(** [const { image1, image2, threshold = 0.6 } = req.body] on the value
    that [req.body] holds: destructuring [undefined] (no body was
    parsed) or [null] throws a [TypeError]; an object gives its own
    properties; an array, a string, a number or a boolean has none of
    the properties that the handler reads. *)
Definition destructure (v : Variant) (req_body : JsValue)
    : Outcome (gmap string JsValue) :=
  match req_body with
  | JUndefined =>
      Throw {| message := "Cannot destructure property '" ++ image1_field v
                          ++ "' of 'req.body' as it is undefined." |}
  | JNull =>
      Throw {| message := "Cannot destructure property '" ++ image1_field v
                          ++ "' of 'req.body' as it is null." |}
  | JObj props => Ok (list_to_map props)
  | _ => Ok ∅
  end.

(** The handler on the request as Express hands it over.  The check of
    [modelsLoaded] comes first; the destructuring is outside the [try]
    block, so that what it throws leaves the handler. *)
Definition compare_faces_handler (v : Variant) (modelsLoaded : bool)
    (req_body : JsValue) : M Response :=
  if negb modelsLoaded then ret models_loading_response
  else
    body <- call (destructure v req_body) ;;
    compare_faces v true body.

End Endpoint.

(** ** The response on the wire *)

(** [res.json] sends [JSON.stringify(payload)]: a number that is not
    finite ([NaN], [Infinity], [-Infinity]) is written [null], [-0] is
    written [0], a property whose value is [undefined] is left out and
    an [undefined] element of an array is written [null].
    [on_the_wire] is the value that a client parses back. *)
Definition is_finite (x : float) : bool :=
  negb (PrimFloat.is_nan x || PrimFloat.is_infinity x).

Definition stringify_number (x : float) : JsValue :=
  if is_finite x
  then JNum (if JSNumber.eq x JSNumber.zero then JSNumber.zero else x)
  else JNull.

Fixpoint on_the_wire (v : JsValue) : JsValue :=
  match v with
  | JNum x => stringify_number x
  | JArr items =>
      JArr (List.map (fun item =>
                        match item with
                        | JUndefined => JNull
                        | _ => on_the_wire item
                        end) items)
  | JObj props =>
      JObj (List.flat_map
              (fun '(name, value) =>
                 match value with
                 | JUndefined => []
                 | _ => [(name, on_the_wire value)]
                 end) props)
  | _ => v
  end.

(** The body of the HTTP response. *)
Definition wire_body (resp : Response) : JsValue := on_the_wire (payload resp).

(** ** Start-up *)

(** The process is running, with its [modelsLoaded] flag and whether the
    server listens, or it has exited. *)
Inductive ProcessState : Type :=
| Running (modelsLoaded listening : bool)
| Exited (code : Z).

(** The outcomes of the three [loadFromDisk] calls. *)
Record Nets : Type :=
  { ssdMobilenetv1 : Outcome unit;
    faceLandmark68Net : Outcome unit;
    faceRecognitionNet : Outcome unit }.

Definition loadModels (nets : Nets) (p : ProcessState) : ProcessState :=
  match p with
  | Running _ listening =>
      match ssdMobilenetv1 nets, faceLandmark68Net nets,
            faceRecognitionNet nets with
      | Ok _, Ok _, Ok _ => Running true listening
      | _, _, _ => Exited 1
      end
  | Exited code => Exited code
  end.

(** The callback of [loadModels().then(...)]: [app.listen(port, ...)]. *)
Definition listen (p : ProcessState) : ProcessState :=
  match p with
  | Running modelsLoaded _ => Running modelsLoaded true
  | Exited code => Exited code
  end.

(** The states the process goes through: [let modelsLoaded = false],
    then [loadModels()], then the [then] callback. *)
Definition lifecycle (nets : Nets) : list ProcessState :=
  let p0 := Running false false in
  let p1 := loadModels nets p0 in
  let p2 := listen p1 in
  [p0; p1; p2].

(** A POST to [/compare-faces] reaches the handler only when the server
    listens. *)
Definition post_compare_faces `{Platform} (v : Variant) (p : ProcessState)
    (body : gmap string JsValue) (st : St) : option (Outcome Response * St) :=
  match p with
  | Running modelsLoaded true => Some (compare_faces v modelsLoaded body st)
  | _ => None
  end.

(** ** The vocabulary of the properties *)

Section Vocabulary.
Context `{Platform}.
Import JSNumber.

(** The threshold a request is compared against. *)
Definition threshold_of (body : gmap string JsValue) : JsValue :=
  with_default (prop body "threshold") (JNum JSNumber.default_threshold).

(** The answer of a request whose loop ended with [bestDistance]: the
    comparison with the threshold gives the [match] flag or throws, and
    a throw is caught by the [catch] block. *)
Definition report (bestDistance : float) (threshold : JsValue)
    (n1 n2 : nat) : Response :=
  match js_lt bestDistance threshold with
  | Ok isMatch => match_response isMatch bestDistance threshold n1 n2
  | Throw error => internal_error_response error
  end.

(** The events of the loop over [detections1]. *)
Definition match_events (detections1 : list Detection) : list Event :=
  List.map (fun detection1 => EvFindBestMatch (descriptor detection1))
    detections1.

(** The distance the loop ends with. *)
Definition best_of (detections1 detections2 : list Detection) : Best :=
  List.fold_left (best_step (FaceMatcher_new detections2)) detections1
    best_init.

(** The nearest-neighbour distance of a detection of the first image
    into the embeddings of the second image. *)
Definition nn_distance (detections2 : list Detection)
    (detection1 : Detection) : float :=
  distance
    (findBestMatch (FaceMatcher_new detections2) (descriptor detection1)).

(** A distance that is a real number: below [Infinity], so not [NaN]. *)
Definition is_real (x : float) : Prop := lt x Infinity = true.

(** The events of the match computation. *)
Definition is_match_event (ev : Event) : bool :=
  match ev with
  | EvFaceMatcher _ | EvFindBestMatch _ => true
  | _ => false
  end.

(** The events that name where the bytes of an image came from. *)
Definition is_source_event (ev : Event) : bool :=
  match ev with
  | EvFetch _ | EvReadFile _ => true
  | _ => false
  end.

Definition source_events (evs : list Event) : list Event :=
  List.filter is_source_event evs.

(** [new_events m P]: running [m] only appends events, all in [P]. *)
Definition new_events {A} (m : M A) (P : Event -> Prop) : Prop :=
  forall st r st', m st = (r, st') ->
    exists evs, trace st' = trace st ++ evs /\ Forall P evs.

End Vocabulary.

(** The headers that the regular expression of variant A removes. *)
Definition data_headers : list string :=
  ["data:image/png;base64,"; "data:image/jpeg;base64,";
   "data:image/jpg;base64,"].

(** ** A small platform to run the code on *)

(** An image file is a list of bytes; every non-zero byte is one face,
    whose embedding is the byte itself, and the distance between two
    embeddings is the absolute difference of their values.  The world
    counts the network and filesystem operations performed so far. *)
Module Fixture.
Import JSNumber.

(** The images on the disk. *)
Definition group : list Byte.byte := [Byte.x30; Byte.x14; Byte.x0c; Byte.x14].
Definition person1 : list Byte.byte := [Byte.x12].
Definition person2 : list Byte.byte := [Byte.x10].
Definition landscape : list Byte.byte := [Byte.x00].

Definition disk (path : string) (ops : nat) : Outcome Buffer * nat :=
  if String.eqb path "/srv/person1.jpg" then (Ok person1, S ops)
  else if String.eqb path "/srv/person2.jpg" then (Ok person2, S ops)
  else if String.eqb path "/srv/group.jpg" then (Ok group, S ops)
  else if String.eqb path "/srv/landscape.jpg" then (Ok landscape, S ops)
  else (Throw {| message := "ENOENT: no such file or directory, open '"
                            ++ path ++ "'" |}, S ops).

(** The network: one image, and one URL answered 404 with an HTML body. *)
Definition remote (url : string) (ops : nat) : Outcome FetchResponse * nat :=
  if String.eqb url "https://example.com/pair.jpg"
  then (Ok {| ok := true; statusText := "OK";
              arrayBuffer := Ok [Byte.x10; Byte.x40] |}, S ops)
  else if String.eqb url "http://example.com/missing.jpg"
  then (Ok {| ok := false; statusText := "Not Found";
              arrayBuffer := Ok [Byte.x3c; Byte.x68; Byte.x31; Byte.x3e] |},
        S ops)
  else (Throw {| message := "request to " ++ url ++ " failed" |}, S ops).

(** The decoder refuses an empty buffer and one that begins with [<]. *)
Definition resize (buffer : Buffer) : Outcome Buffer :=
  match buffer with
  | [] => Throw {| message := "Input Buffer is empty" |}
  | Byte.x3c :: _ =>
      Throw {| message := "Input buffer contains unsupported image format" |}
  | _ => Ok buffer
  end.

Definition embedding (b : Byte.byte) : Z := Z.of_N (Byte.to_N b).

Definition euclideanDistance (a b : Byte.byte) : float :=
  PrimFloat.of_uint63 (Uint63.of_Z (Z.abs (embedding a - embedding b))).

Definition nearest (labeled : list Byte.byte) (query : Byte.byte) : float :=
  List.fold_left
    (fun best d => if lt (euclideanDistance d query) best
                   then euclideanDistance d query else best)
    labeled Infinity.

#[local] Instance platform : Platform :=
  {| World := nat;
     fetch := remote;
     readFileSync := disk;
     path_resolve := fun p =>
       if String.prefix "/" p then p else String.append "/srv/" p;
     Buffer_from_base64 := String.list_byte_of_string;
     sharp_resize := resize;
     Image := Buffer;
     Image_src := fun image => Ok image;
     Detection := Byte.byte;
     Descriptor := Byte.byte;
     descriptor := fun d => d;
     detectAllFaces := fun img =>
       Ok (List.filter (fun b => negb (Byte.eqb b Byte.x00)) img);
     FaceMatcher := list Byte.byte;
     FaceMatcher_new := fun detections => detections;
     findBestMatch := fun labeled query =>
       {| label := "person 1"; distance := nearest labeled query |};
     StringToNumber := fun _ => PrimFloat.nan;
     ObjectToString := fun _ => "[object Object]" |}.

Definition start : St := {| world := 0%nat; trace := [] |}.

(** Request bodies. *)
Definition files (v : Variant) (p1 p2 : string) : gmap string JsValue :=
  <[image1_field v := JStr p1]> (<[image2_field v := JStr p2]> ∅).

Definition with_threshold (t : JsValue) (body : gmap string JsValue)
    : gmap string JsValue :=
  <["threshold" := t]> body.

(** The state after the file [p1] was read and decoded, and after [p2]
    was too when it is given. *)
Definition loaded (p1 : string) (b1 : Buffer) (p2 : string) (b2 : Buffer)
    (ops : nat) : St :=
  {| world := ops;
     trace := [EvLoadImage (JStr p1); EvReadFile (String.append "/srv/" p1);
               EvDecode b1] ++
              match p2 with
              | "" => []
              | _ => [EvLoadImage (JStr p2);
                      EvReadFile (String.append "/srv/" p2); EvDecode b2]
              end |}.

(** The three nets load. *)
Definition all_loaded : Nets :=
  {| ssdMobilenetv1 := Ok tt; faceLandmark68Net := Ok tt;
     faceRecognitionNet := Ok tt |}.

End Fixture.

(** ** Start-up, net by net *)






Definition is_Ok {A} (r : Outcome A) : bool :=
  match r with
  | Ok _ => true
  | Throw _ => false
  end.

Definition is_string (v : JsValue) : bool :=
  match v with
  | JStr _ => true
  | _ => false
  end.

(** ** Counting events *)

Section Counting.
Context `{Platform}.

Definition is_decode_event (ev : Event) : bool :=
  match ev with
  | EvDecode _ => true
  | _ => false
  end.

(** The events of [loadImage]. *)
Definition is_resolver_event (ev : Event) : bool :=
  match ev with
  | EvLoadImage _ | EvFetch _ | EvReadFile _ | EvDecode _ => true
  | _ => false
  end.

Definition is_detect_event (ev : Event) : bool :=
  match ev with
  | EvDetect _ => true
  | _ => false
  end.

(** How many events of [evs] satisfy [p]. *)
Definition count_events (p : Event -> bool) (evs : list Event) : nat :=
  length (List.filter p evs).

End Counting.

(** ** A platform that misbehaves *)

(** The platform of [Fixture], except that the detection pipeline
    throws on an image whose first byte is zero and that the matcher
    returns the distance [NaN] for every face. *)
Module Faulty.

Definition detect (img : Buffer) : Outcome (list Byte.byte) :=
  match img with
  | Byte.x00 :: _ =>
      Throw {| message := "Error: Pass a tensor to the detection net" |}
  | _ => Ok (List.filter (fun b => negb (Byte.eqb b Byte.x00)) img)
  end.

#[local] Instance platform : Platform :=
  {| World := nat;
     fetch := Fixture.remote;
     readFileSync := Fixture.disk;
     path_resolve := fun p =>
       if String.prefix "/" p then p else String.append "/srv/" p;
     Buffer_from_base64 := String.list_byte_of_string;
     sharp_resize := Fixture.resize;
     Image := Buffer;
     Image_src := fun image => Ok image;
     Detection := Byte.byte;
     Descriptor := Byte.byte;
     descriptor := fun d => d;
     detectAllFaces := detect;
     FaceMatcher := list Byte.byte;
     FaceMatcher_new := fun detections => detections;
     findBestMatch := fun labeled query =>
       {| label := "unknown"; distance := PrimFloat.nan |};
     StringToNumber := fun _ => PrimFloat.nan;
     ObjectToString := fun _ => "[object Object]" |}.

Definition start : St := {| world := 0%nat; trace := [] |}.

(** Request bodies. *)
Definition files (v : Variant) (p1 p2 : string) : gmap string JsValue :=
  <[image1_field v := JStr p1]> (<[image2_field v := JStr p2]> ∅).

(** The state after the file [p1] was read and decoded, and after [p2]
    was too when it is given. *)
Definition loaded (p1 : string) (b1 : Buffer) (p2 : string) (b2 : Buffer)
    (ops : nat) : St :=
  {| world := ops;
     trace := [EvLoadImage (JStr p1); EvReadFile (String.append "/srv/" p1);
               EvDecode b1] ++
              match p2 with
              | "" => []
              | _ => [EvLoadImage (JStr p2);
                      EvReadFile (String.append "/srv/" p2); EvDecode b2]
              end |}.

End Faulty.

(** * Properties *)

(** ** The order of numbers *)

Module JSNumberFacts.
Import JSNumber.

Lemma SFcompare_antisym (x y : spec_float) :
  SFcompare y x = option_map CompOpp (SFcompare x y).
Proof.
  destruct x as [sx|sx| |sx mx ex], y as [sy|sy| |sy my ey]; simpl;
    try reflexivity; try (destruct sx; reflexivity);
    try (destruct sy; reflexivity); try (destruct sx, sy; reflexivity).
  change (Pos.compare_cont Eq my mx) with (Pos.compare my mx).
  change (Pos.compare_cont Eq mx my) with (Pos.compare mx my).
  rewrite (Z.compare_antisym ex ey), (Pos.compare_antisym mx my).
  destruct sx, sy; try reflexivity; f_equal;
    destruct (Z.compare ex ey); simpl; try reflexivity.
Qed.

(** Case analysis on three numbers, down to the comparison of their
    exponents and mantissas. *)
Ltac sf_cases x y z :=
  destruct x as [[]|[]| |[] ?mx ?ex], y as [[]|[]| |[] ?my ?ey],
           z as [[]|[]| |[] ?mz ?ez];
  simpl; try discriminate; try reflexivity; try congruence;
  change (Pos.compare_cont Eq) with Pos.compare;
  repeat match goal with
    | |- context [Z.compare ?a ?b] => destruct (Z.compare_spec a b)
    | |- context [Pos.compare ?a ?b] => destruct (Pos.compare_spec a b)
    end;
  simpl; try discriminate; try reflexivity; try congruence; try lia.

Lemma SFltb_trans (x y z : spec_float) :
  SFltb x y = true -> SFltb y z = true -> SFltb x z = true.
Proof. unfold SFltb. sf_cases x y z. Qed.

Lemma SFltb_le_trans (x y z : spec_float) :
  SFltb x y = true -> SFltb z y = false -> z <> S754_nan ->
  SFltb x z = true.
Proof. unfold SFltb. sf_cases x y z. Qed.

Lemma SFleb_of_not_ltb (x y : spec_float) :
  x <> S754_nan -> y <> S754_nan -> SFltb x y = false -> SFleb y x = true.
Proof.
  unfold SFltb, SFleb. rewrite (SFcompare_antisym x y).
  destruct x as [[]|[]| |[] mx ex], y as [[]|[]| |[] my ey];
    simpl; try discriminate; try reflexivity; try congruence;
    destruct (ex ?= ey)%Z; simpl; try discriminate; try reflexivity;
    destruct (Pos.compare_cont Eq mx my); simpl;
    try discriminate; reflexivity.
Qed.

Lemma lt_not_nan (x y : float) : lt x y = true -> Prim2SF x <> S754_nan.
Proof.
  unfold lt. rewrite ltb_spec. intros Hlt Hnan. rewrite Hnan in Hlt.
  discriminate.
Qed.

(** [<] is transitive. *)
Lemma lt_trans (x y z : float) :
  lt x y = true -> lt y z = true -> lt x z = true.
Proof. unfold lt. rewrite !ltb_spec. apply SFltb_trans. Qed.

(** [x < y] and [y <= z] (as: not [z < y], [z] a number) give [x < z]. *)
Lemma lt_le_trans (x y z w : float) :
  lt x y = true -> lt z y = false -> lt z w = true -> lt x z = true.
Proof.
  intros Hxy Hzy Hz. pose proof (lt_not_nan _ _ Hz) as Hnan.
  unfold lt in *. rewrite ltb_spec in *.
  eapply SFltb_le_trans; eassumption.
Qed.

(** On numbers, not [x < y] is [y <= x]. *)
Lemma le_of_not_lt (x y u w : float) :
  lt x u = true -> lt y w = true -> lt x y = false -> le y x = true.
Proof.
  intros Hx Hy Hxy. apply lt_not_nan in Hx, Hy.
  unfold lt, le in *. rewrite ltb_spec in Hxy. rewrite leb_spec.
  apply SFleb_of_not_ltb; assumption.
Qed.

Lemma lt_irrefl (x : float) : lt x x = false.
Proof.
  unfold lt. rewrite ltb_spec. unfold SFltb.
  destruct (Prim2SF x) as [[]|[]| |[] m e]; simpl; try reflexivity;
    rewrite Z.compare_refl; change (Pos.compare_cont Eq) with Pos.compare;
    rewrite Pos.compare_refl; reflexivity.
Qed.

(** Nothing is above [Infinity]. *)
Lemma not_Infinity_lt (x : float) : lt Infinity x = false.
Proof.
  unfold lt, Infinity. rewrite ltb_spec.
  change (Prim2SF infinity) with (S754_infinity false).
  unfold SFltb. destruct (Prim2SF x) as [[]|[]| |[] m e]; reflexivity.
Qed.

End JSNumberFacts.

(** ** Running the handler *)

Section Runs.
Context `{Platform}.

Lemma record_nil (st : St) : record [] st = st.
Proof. destruct st as [w t]. unfold record. simpl. now rewrite app_nil_r. Qed.

Lemma record_app (evs1 evs2 : list Event) (st : St) :
  record evs2 (record evs1 st) = record (evs1 ++ evs2) st.
Proof. unfold record. simpl. now rewrite app_assoc. Qed.

Lemma emit_run (ev : Event) (st : St) : emit ev st = (Ok tt, record [ev] st).
Proof. reflexivity. Qed.

Lemma bind_ok {A B} (m : M A) (k : A -> M B) (st st' : St) (a : A) :
  m st = (Ok a, st') -> bind m k st = k a st'.
Proof. unfold bind. now intros ->. Qed.

Lemma bind_throw {A B} (m : M A) (k : A -> M B) (st st' : St) (e : JsError) :
  m st = (Throw e, st') -> bind m k st = (Throw e, st').
Proof. unfold bind. now intros ->. Qed.

Lemma bind_assoc {A B C} (m : M A) (k : A -> M B) (k' : B -> M C) (st : St) :
  bind (bind m k) k' st = bind m (fun a => bind (k a) k') st.
Proof. unfold bind. destruct (m st) as [[a|e] st']; reflexivity. Qed.

Lemma bind_emit {B} (ev : Event) (k : unit -> M B) (st : St) :
  bind (emit ev) k st = k tt (record [ev] st).
Proof. reflexivity. Qed.

Lemma bind_call {A B} (a : A) (k : A -> M B) (st : St) :
  bind (call (Ok a)) k st = k a st.
Proof. reflexivity. Qed.

Lemma bind_ret {A B} (a : A) (k : A -> M B) (st : St) :
  bind (ret a) k st = k a st.
Proof. reflexivity. Qed.

(** The loop is a left fold of [best_step], one [findBestMatch] per
    detection of the first image, in order. *)
Lemma forEach_best_run (faceMatcher : FaceMatcher)
    (detections1 : list Detection) (best : Best) (st : St) :
  forEach_best faceMatcher detections1 best st =
  (Ok (List.fold_left (best_step faceMatcher) detections1 best),
   record (match_events detections1) st).
Proof.
  revert best st.
  induction detections1 as [|d ds IH]; intros best st; simpl.
  - now rewrite record_nil.
  - unfold bind. rewrite emit_run, IH, record_app. reflexivity.
Qed.

(** A threshold that converts gives a [match] flag. *)
Lemma js_lt_converts (x : float) (threshold : JsValue) :
  to_primitive_throws threshold = false ->
  exists isMatch : bool, js_lt x threshold = Ok isMatch.
Proof.
  intros Hconv. unfold js_lt, ToNumber.
  destruct threshold; try (eexists; reflexivity);
    rewrite Hconv; eexists; reflexivity.
Qed.

Lemma report_converts (x : float) (threshold : JsValue) (n1 n2 : nat) :
  to_primitive_throws threshold = false ->
  exists isMatch : bool,
    js_lt x threshold = Ok isMatch /\
    report x threshold n1 n2 = match_response isMatch x threshold n1 n2.
Proof.
  intros Hconv. destruct (js_lt_converts x threshold Hconv) as [m Hm].
  exists m. split; [assumption|]. unfold report. now rewrite Hm.
Qed.

End Runs.

(** ** The minimum kept by the loop *)

Section Minimum.
Context `{Platform}.
Import JSNumber JSNumberFacts.

Lemma best_of_snoc (detections1 detections2 : list Detection)
    (detection1 : Detection) :
  best_of (detections1 ++ [detection1]) detections2 =
  best_step (FaceMatcher_new detections2) (best_of detections1 detections2)
    detection1.
Proof. unfold best_of. now rewrite fold_left_app. Qed.

(** Where the loop stops: at the first detection of minimum distance. *)
Lemma best_of_first_minimum (detections2 detections1 : list Detection) :
  detections1 <> [] ->
  Forall (fun d => is_real (nn_distance detections2 d)) detections1 ->
  exists (i : nat) (d1 : Detection),
    detections1 !! i = Some d1 /\
    best_of detections1 detections2 =
      (Some (findBestMatch (FaceMatcher_new detections2) (descriptor d1)),
       nn_distance detections2 d1) /\
    (forall j d', j < i -> detections1 !! j = Some d' ->
       lt (nn_distance detections2 d1) (nn_distance detections2 d') = true) /\
    (forall j d', detections1 !! j = Some d' ->
       lt (nn_distance detections2 d') (nn_distance detections2 d1) = false).
Proof.
  induction detections1 as [|x l IH] using rev_ind; [congruence|].
  intros _ Hreal. apply Forall_app in Hreal as [Hl Hx].
  rewrite Forall_singleton in Hx. rewrite best_of_snoc.
  destruct l as [|y l'].
  - exists 0, x. unfold best_step, best_of, best_init. cbn [fold_left snd].
    fold (nn_distance detections2 x). unfold is_real in Hx. rewrite Hx.
    split; [reflexivity|]. split; [reflexivity|]. split.
    + intros j d' Hj; lia.
    + intros [|j] d' Hj; [|destruct j; discriminate].
      injection Hj as <-. apply lt_irrefl.
  - destruct IH as (i & d1 & Hi & Hbest & Hfirst & Hmin);
      [discriminate | assumption |].
    set (l := y :: l') in *. rewrite Hbest. unfold best_step. cbn [snd].
    fold (nn_distance detections2 x).
    destruct (lt (nn_distance detections2 x) (nn_distance detections2 d1))
      eqn:Hlt.
    + exists (length l), x.
      split; [now rewrite list_lookup_middle|]. split; [reflexivity|]. split.
      * intros j d' Hj Hd'. rewrite lookup_app_l in Hd' by assumption.
        eapply lt_le_trans; [exact Hlt | eapply Hmin; exact Hd' |].
        exact (Forall_lookup_1 _ _ _ _ Hl Hd').
      * intros j d' Hd'. apply lookup_snoc_Some in Hd' as [[_ Hd']|[_ <-]].
        -- destruct (lt (nn_distance detections2 d') (nn_distance detections2 x))
             eqn:Hd'x; [|reflexivity].
           rewrite <- (Hmin _ _ Hd'). symmetry.
           eapply lt_trans; eassumption.
        -- apply lt_irrefl.
    + exists i, d1.
      split; [now apply lookup_app_l_Some|]. split; [reflexivity|]. split.
      * intros j d' Hj Hd'. apply (Hfirst j); [assumption|].
        rewrite lookup_app_l in Hd'; [assumption|].
        apply lookup_lt_Some in Hi. lia.
      * intros j d' Hd'. apply lookup_snoc_Some in Hd' as [[_ Hd']|[_ <-]].
        -- eapply Hmin; eassumption.
        -- assumption.
Qed.

(** The loop never ends below every distance it has seen: its result
    is [Infinity] or one of them. *)
Lemma best_of_not_below (bound : float) (detections2 detections1 : list Detection) :
  lt Infinity bound = false ->
  Forall (fun d => lt (nn_distance detections2 d) bound = false) detections1 ->
  lt (snd (best_of detections1 detections2)) bound = false.
Proof.
  intros Hinf.
  induction detections1 as [|x l IH] using rev_ind; intros Hall.
  - exact Hinf.
  - apply Forall_app in Hall as [Hl Hx]. rewrite Forall_singleton in Hx.
    rewrite best_of_snoc. unfold best_step.
    fold (nn_distance detections2 x).
    destruct (lt (nn_distance detections2 x) (snd (best_of l detections2)));
      cbn [snd]; auto.
Qed.

End Minimum.

(** ** The gates of the handler *)

Section Gates.
Context `{Platform}.

(** C4: while [modelsLoaded] is false the handler answers 503 with the
    fixed message and leaves the state as it found it: no image is
    resolved and the detection pipeline is not invoked. *)
Theorem loading_rejects_with_503 (v : Variant) (body : gmap string JsValue)
    (st : St) :
  compare_faces v false body st = (Ok models_loading_response, st) /\
  status models_loading_response = 503%Z /\
  field "error" (payload models_loading_response) =
    JStr "Models are still loading. Please try again shortly.".
Proof. repeat split. Qed.

(** The server listens only once [loadModels] has set the flag. *)
Lemma listening_after_models_loaded (nets : Nets) (modelsLoaded : bool) :
  In (Running modelsLoaded true) (lifecycle nets) -> modelsLoaded = true.
Proof.
  unfold lifecycle, loadModels, listen.
  destruct (ssdMobilenetv1 nets), (faceLandmark68Net nets),
    (faceRecognitionNet nets); simpl; intuition congruence.
Qed.

(** Once the models are loaded, a falsy image field stops the handler
    before anything else is done. *)
Lemma falsy_image_rejected (v : Variant) (body : gmap string JsValue) (st : St) :
  ToBoolean (prop body (image1_field v)) = false \/
  ToBoolean (prop body (image2_field v)) = false ->
  compare_faces v true body st = (Ok (missing_image_response v), st).
Proof.
  unfold compare_faces. cbn [negb].
  intros [-> | ->]; [reflexivity|].
  now rewrite orb_true_r.
Qed.

Lemma post_compare_faces_inv (v : Variant) (nets : Nets) (p : ProcessState)
    (body : gmap string JsValue) (st : St) (r : Outcome Response * St) :
  In p (lifecycle nets) ->
  post_compare_faces v p body st = Some r ->
  r = compare_faces v true body st.
Proof.
  intros Hp Hr. destruct p as [modelsLoaded [|]|code]; try discriminate.
  apply listening_after_models_loaded in Hp as ->.
  now injection Hr as <-.
Qed.

(** C8: a request received by the server in which either image field is
    missing from the body is answered 400 with the fixed error payload,
    whatever the other fields hold. *)
Theorem missing_image_field_gives_400 (v : Variant) (nets : Nets)
    (p : ProcessState) (body : gmap string JsValue) (st : St)
    (r : Outcome Response * St) :
  In p (lifecycle nets) ->
  post_compare_faces v p body st = Some r ->
  body !! image1_field v = None \/ body !! image2_field v = None ->
  r = (Ok (missing_image_response v), st) /\
  status (missing_image_response v) = 400%Z.
Proof.
  intros Hp Hr Hmissing. split; [|reflexivity].
  rewrite (post_compare_faces_inv _ _ _ _ _ _ Hp Hr).
  apply falsy_image_rejected. unfold prop.
  destruct Hmissing as [-> | ->]; auto.
Qed.

(** C10: a request received by the server in which either image field
    is present but falsy (the empty string, [0], [null], [false]) is
    answered as when the field is absent, and the state is left as it
    was: no image is resolved and nothing is detected. *)
Theorem falsy_image_field_gives_400 (v : Variant) (nets : Nets)
    (p : ProcessState) (body : gmap string JsValue) (st : St)
    (r : Outcome Response * St) :
  In p (lifecycle nets) ->
  post_compare_faces v p body st = Some r ->
  ToBoolean (prop body (image1_field v)) = false \/
  ToBoolean (prop body (image2_field v)) = false ->
  r = (Ok (missing_image_response v), st) /\
  post_compare_faces v p (delete (image1_field v) body) st = Some r /\
  post_compare_faces v p (delete (image2_field v) body) st = Some r.
Proof.
  intros Hp Hr Hfalsy.
  pose proof (post_compare_faces_inv _ _ _ _ _ _ Hp Hr) as Hrun.
  rewrite (falsy_image_rejected _ _ _ Hfalsy) in Hrun. subst r.
  split; [reflexivity|].
  destruct p as [modelsLoaded [|]|code]; try discriminate.
  apply listening_after_models_loaded in Hp as ->.
  unfold post_compare_faces.
  split; f_equal; apply falsy_image_rejected; unfold prop;
    rewrite lookup_delete_eq; auto.
Qed.

End Gates.

(** ** The events a computation records *)

Section Events.
Context `{Platform}.

Lemma new_events_silent {A} (m : M A) (P : Event -> Prop) :
  (forall st, trace (snd (m st)) = trace st) -> new_events m P.
Proof.
  intros Hm st r st' Hrun. exists []. split; [|constructor].
  specialize (Hm st). rewrite Hrun in Hm. simpl in Hm.
  now rewrite app_nil_r.
Qed.

Lemma new_events_ret {A} (a : A) P : new_events (ret a) P.
Proof. now apply new_events_silent. Qed.

Lemma new_events_throw {A} (msg : string) P : new_events (@throw _ A msg) P.
Proof. now apply new_events_silent. Qed.

Lemma new_events_call {A} (r : Outcome A) P : new_events (call r) P.
Proof. now apply new_events_silent. Qed.

Lemma new_events_io {A} (op : World -> Outcome A * World) P :
  new_events (io op) P.
Proof.
  apply new_events_silent. intros st. unfold io.
  now destruct (op (world st)).
Qed.

Lemma new_events_emit (ev : Event) (P : Event -> Prop) :
  P ev -> new_events (emit ev) P.
Proof.
  intros Hev st r st' Hrun. injection Hrun as <- <-.
  exists [ev]. split; [reflexivity | now constructor].
Qed.

Lemma new_events_bind {A B} (m : M A) (k : A -> M B) P :
  new_events m P -> (forall a, new_events (k a) P) -> new_events (bind m k) P.
Proof.
  intros Hm Hk st r st' Hrun. unfold bind in Hrun.
  destruct (m st) as [[a|e] st1] eqn:Hst.
  - destruct (Hm _ _ _ Hst) as (evs1 & Ht1 & Hevs1).
    destruct (Hk a _ _ _ Hrun) as (evs2 & Ht2 & Hevs2).
    exists (evs1 ++ evs2). rewrite Ht2, Ht1, app_assoc.
    split; [reflexivity | now apply Forall_app].
  - injection Hrun as <- <-. eauto.
Qed.

Lemma new_events_try_catch {A} (body : M A) (handler : JsError -> M A) P :
  new_events body P -> (forall e, new_events (handler e) P) ->
  new_events (try_catch body handler) P.
Proof.
  intros Hm Hk st r st' Hrun. unfold try_catch in Hrun.
  destruct (body st) as [[a|e] st1] eqn:Hst.
  - injection Hrun as <- <-. eauto.
  - destruct (Hm _ _ _ Hst) as (evs1 & Ht1 & Hevs1).
    destruct (Hk e _ _ _ Hrun) as (evs2 & Ht2 & Hevs2).
    exists (evs1 ++ evs2). rewrite Ht2, Ht1, app_assoc.
    split; [reflexivity | now apply Forall_app].
Qed.

Ltac new_events_step :=
  first
    [ apply new_events_ret | apply new_events_throw | apply new_events_call
    | apply new_events_io | apply new_events_emit; reflexivity
    | apply new_events_bind; [|intros ?]
    | apply new_events_try_catch; [|intros ?] ].

(** Resolving an image computes no match. *)
Lemma loadImage_events (v : Variant) (imageSource : JsValue) :
  new_events (loadImage v imageSource) (fun ev => is_match_event ev = false).
Proof.
  destruct v; unfold loadImage, VariantA.loadImage, VariantB.loadImage,
    decodeImage, startsWith_receiver;
    repeat first
      [ new_events_step
      | match goal with
        | |- new_events (match ?x with _ => _ end) _ => destruct x
        end ].
Qed.

End Events.

(** ** The comparison *)

Section Comparison.
Context `{Platform}.
Import JSNumber JSNumberFacts.

(** A request, handled with the models loaded, whose two image fields
    resolve to images in which the pipeline detects [detections1] and
    [detections2]. *)
Variables (v : Variant) (body : gmap string JsValue).
Variables (st0 st1 st2 : St) (img1 img2 : Image).
Variables (detections1 detections2 : list Detection).
Hypothesis image1_given : ToBoolean (prop body (image1_field v)) = true.
Hypothesis image2_given : ToBoolean (prop body (image2_field v)) = true.
Hypothesis image1_loaded :
  loadImage v (prop body (image1_field v)) st0 = (Ok img1, st1).
Hypothesis image2_loaded :
  loadImage v (prop body (image2_field v)) st1 = (Ok img2, st2).
Hypothesis image1_detected : detectAllFaces img1 = Ok detections1.
Hypothesis image2_detected : detectAllFaces img2 = Ok detections2.

(** The handler on such a request. *)
Lemma compare_faces_detected :
  compare_faces v true body st0 =
  if (length detections1 =? 0)%nat || (length detections2 =? 0)%nat
  then (Ok no_face_response, record [EvDetect img1; EvDetect img2] st2)
  else
    let best := best_of detections1 detections2 in
    (Ok (report (snd best) (threshold_of body)
           (length detections1) (length detections2)),
     record ([EvDetect img1; EvDetect img2; EvFaceMatcher detections2]
             ++ match_events detections1) st2).
Proof.
  unfold compare_faces. cbn [negb].
  rewrite image1_given, image2_given. cbn [negb orb].
  unfold try_catch.
  rewrite (bind_ok _ _ _ _ _ image1_loaded).
  rewrite (bind_ok _ _ _ _ _ image2_loaded).
  unfold detect. rewrite !bind_assoc, !bind_emit, image1_detected, bind_call.
  rewrite !bind_assoc, !bind_emit, image2_detected, bind_call.
  rewrite record_app. cbn [app].
  destruct ((length detections1 =? 0)%nat || (length detections2 =? 0)%nat).
  - reflexivity.
  - rewrite bind_emit. unfold bind at 1.
    rewrite forEach_best_run, !record_app.
    fold (best_of detections1 detections2). fold (threshold_of body).
    unfold report, bind, call, ret.
    destruct (js_lt (snd (best_of detections1 detections2))
                (threshold_of body)); reflexivity.
Qed.

Lemma compare_faces_matched :
  length detections1 <> 0 -> length detections2 <> 0 ->
  compare_faces v true body st0 =
  (Ok (report (snd (best_of detections1 detections2)) (threshold_of body)
         (length detections1) (length detections2)),
   record ([EvDetect img1; EvDetect img2; EvFaceMatcher detections2]
           ++ match_events detections1) st2).
Proof.
  intros Hn1 Hn2.
  rewrite compare_faces_detected.
  destruct detections1, detections2; simpl in *; congruence.
Qed.


(** C2: the [distance] of the 200 answer is the nearest-neighbour
    distance of one detection of the first image, no detection of the
    first image has a smaller one, every earlier detection has a
    strictly larger one, and the match the loop retains is that of this
    first minimum.  The nearest-neighbour distances are real numbers,
    and the threshold is one that [<] can convert, so that the answer
    is the 200 one. *)
Theorem distance_is_first_minimum :
  length detections1 <> 0 -> length detections2 <> 0 ->
  to_primitive_throws (threshold_of body) = false ->
  Forall (fun d => is_real (nn_distance detections2 d)) detections1 ->
  exists (resp : Response) (st' : St) (i : nat) (d1 : Detection),
    compare_faces v true body st0 = (Ok resp, st') /\
    status resp = 200%Z /\
    detections1 !! i = Some d1 /\
    field "distance" (payload resp) = JNum (nn_distance detections2 d1) /\
    (forall j d', detections1 !! j = Some d' ->
       le (nn_distance detections2 d1) (nn_distance detections2 d') = true) /\
    (forall j d', j < i -> detections1 !! j = Some d' ->
       lt (nn_distance detections2 d1) (nn_distance detections2 d') = true) /\
    (forall st,
       fst (forEach_best (FaceMatcher_new detections2) detections1
              best_init st) =
       Ok (Some (findBestMatch (FaceMatcher_new detections2) (descriptor d1)),
           nn_distance detections2 d1)).
Proof.
  intros Hn1 Hn2 Hconv Hreal.
  destruct (best_of_first_minimum detections2 detections1)
    as (i & d1 & Hi & Hbest & Hfirst & Hmin);
    [now destruct detections1 | assumption |].
  destruct (report_converts (snd (best_of detections1 detections2))
              (threshold_of body) (length detections1) (length detections2)
              Hconv) as (isMatch & _ & Hreport).
  eexists _, _, i, d1.
  split; [rewrite compare_faces_matched, Hreport by assumption; reflexivity|].
  rewrite Hbest.
  split; [reflexivity|]. split; [assumption|]. split; [reflexivity|].
  split; [|split; [assumption|]].
  - intros j d' Hd'.
    eapply le_of_not_lt; [| |eapply Hmin; eassumption].
    + exact (Forall_lookup_1 _ _ _ _ Hreal Hd').
    + exact (Forall_lookup_1 _ _ _ _ Hreal Hi).
  - intros st. rewrite forEach_best_run. cbn [fst]. f_equal. exact Hbest.
Qed.

(** C3: when the detection collection of either image is empty the
    answer is a 400 with [match: false], whatever the other collection
    holds, and no event of the whole request is a match computation. *)
Theorem no_face_gives_400 :
  length detections1 = 0 \/ length detections2 = 0 ->
  exists (st' : St) (evs : list Event),
    compare_faces v true body st0 = (Ok no_face_response, st') /\
    status no_face_response = 400%Z /\
    field "match" (payload no_face_response) = JBool false /\
    trace st' = trace st0 ++ evs /\
    Forall (fun ev => is_match_event ev = false) evs.
Proof.
  intros Hempty.
  destruct (loadImage_events _ _ _ _ _ image1_loaded) as (evs1 & Ht1 & Hevs1).
  destruct (loadImage_events _ _ _ _ _ image2_loaded) as (evs2 & Ht2 & Hevs2).
  exists (record [EvDetect img1; EvDetect img2] st2),
    (evs1 ++ evs2 ++ [EvDetect img1; EvDetect img2]).
  split.
  - rewrite compare_faces_detected.
    destruct Hempty as [-> | ->]; [reflexivity|].
    now rewrite orb_true_r.
  - split; [reflexivity|]. split; [reflexivity|]. split.
    + cbn [record trace]. rewrite Ht2, Ht1, <- !app_assoc. reflexivity.
    + rewrite !Forall_app. repeat split; try assumption.
      repeat constructor.
Qed.

(** With a threshold of 0 and distances that are never negative, no
    comparison matches, the one at distance 0 included. *)
Lemma zero_threshold_never_matches :
  body !! "threshold" = Some (JNum zero) ->
  length detections1 <> 0 -> length detections2 <> 0 ->
  Forall (fun d => lt (nn_distance detections2 d) zero = false) detections1 ->
  compare_faces v true body st0 =
  (Ok (match_response false (snd (best_of detections1 detections2))
         (JNum zero) (length detections1) (length detections2)),
   record ([EvDetect img1; EvDetect img2; EvFaceMatcher detections2]
           ++ match_events detections1) st2).
Proof.
  intros Hzero Hn1 Hn2 Hnonneg.
  rewrite compare_faces_matched by assumption.
  unfold threshold_of, prop. rewrite Hzero. cbn [with_default].
  unfold report, js_lt. cbn [ToNumber].
  rewrite (best_of_not_below zero detections2 detections1);
    [reflexivity | apply not_Infinity_lt | assumption].
Qed.

(** C7: with [threshold = 0] the [match] flag is false unless the
    computed distance is exactly 0.  The nearest-neighbour distances are
    never negative. *)
Theorem zero_threshold_no_match_unless_zero_distance :
  body !! "threshold" = Some (JNum zero) ->
  length detections1 <> 0 -> length detections2 <> 0 ->
  Forall (fun d => lt (nn_distance detections2 d) zero = false) detections1 ->
  exists (resp : Response) (st' : St) (dist : float),
    compare_faces v true body st0 = (Ok resp, st') /\
    status resp = 200%Z /\
    field "threshold" (payload resp) = JNum zero /\
    field "distance" (payload resp) = JNum dist /\
    (eq dist zero = false -> field "match" (payload resp) = JBool false).
Proof.
  intros Hzero Hn1 Hn2 Hnonneg. eexists _, _, _.
  split; [apply zero_threshold_never_matches; assumption|].
  repeat split.
Qed.


End Comparison.

(** ** The image resolver *)

Lemma substring_whole (s : string) : String.substring 0 (String.length s) s = s.
Proof. induction s as [|c s IH]; simpl; [reflexivity | now rewrite IH]. Qed.

Lemma prefix_nil (s : string) : String.prefix "" s = true.
Proof. now destruct s. Qed.

(** A string cannot begin both with [http] and with [data:image]. *)
Lemma http_not_data (s : string) :
  String.prefix "http://" s || String.prefix "https://" s = true ->
  String.prefix "data:image" s = false.
Proof.
  destruct s as [|c s]; [discriminate|]. cbn [String.prefix].
  destruct (ascii_dec "h" c) as [<-|]; [reflexivity | cbn; discriminate].
Qed.

Lemma strip_data_header_app (header payload : string) :
  In header data_headers ->
  String.prefix "data:image" (header ++ payload) = true /\
  strip_data_header (header ++ payload) = payload.
Proof.
  intros [<- | [<- | [<- | []]]]; (split; [reflexivity|]);
    unfold strip_data_header, string_drop; cbv [String.append]; cbn;
    rewrite prefix_nil, Nat.sub_0_r; apply substring_whole.
Qed.

Section ResolverFacts.
Context `{Platform}.

Lemma source_events_app (evs1 evs2 : list Event) :
  source_events (evs1 ++ evs2) = source_events evs1 ++ source_events evs2.
Proof. apply List.filter_app. Qed.

(** Decoding reads nothing from the network or the disk. *)
Lemma decodeImage_source_events (buffer : Buffer) (st : St) :
  source_events (trace (snd (decodeImage buffer st))) = source_events (trace st).
Proof.
  unfold decodeImage. rewrite bind_emit. unfold bind, call, ret.
  destruct (sharp_resize buffer) as [image|e];
    [destruct (Image_src image) as [img|e]|];
    cbn [snd record trace]; rewrite source_events_app; cbn; apply app_nil_r.
Qed.

(** Running the combinators of the monad. *)
Ltac run_monad :=
  unfold startsWith_receiver;
  unfold bind, emit, io, call, ret, throw, try_catch, record;
  cbn [world trace fst snd negb].

Lemma VariantA_loadImage_data (header payload : string) (st : St) :
  In header data_headers ->
  VariantA.loadImage (JStr (header ++ payload)) st =
  decodeImage (Buffer_from_base64 payload)
    (record [EvLoadImage (JStr (header ++ payload))] st).
Proof.
  intros Hheader. destruct (strip_data_header_app header payload Hheader)
    as [Hprefix Hstrip].
  unfold VariantA.loadImage. rewrite bind_emit.
  cbn [startsWith_receiver]. rewrite bind_ret, Hprefix, bind_ret, Hstrip.
  reflexivity.
Qed.

(** What variant A does with a URL, by the outcome of the fetch. *)
Lemma VariantA_loadImage_url (s : string) (st : St) :
  String.prefix "http://" s || String.prefix "https://" s = true ->
  VariantA.loadImage (JStr s) st =
  let fetched := record [EvLoadImage (JStr s); EvFetch s] st in
  match fetch s (world st) with
  | (Throw e, w) => (Throw e, {| world := w; trace := trace fetched |})
  | (Ok response, w) =>
      if ok response then
        match arrayBuffer response with
        | Ok buffer => decodeImage buffer {| world := w; trace := trace fetched |}
        | Throw e => (Throw e, {| world := w; trace := trace fetched |})
        end
      else
        (Throw {| message := "Failed to fetch image from URL: "
                             ++ statusText response |},
         {| world := w; trace := trace fetched |})
  end.
Proof.
  intros Hhttp. unfold VariantA.loadImage. run_monad.
  rewrite (http_not_data s Hhttp), Hhttp. run_monad.
  destruct (fetch s (world st)) as [[response|e] w]; run_monad;
    [|now rewrite <- app_assoc].
  destruct (ok response); run_monad; [|now rewrite <- app_assoc].
  destruct (arrayBuffer response); run_monad; now rewrite <- app_assoc.
Qed.

(** What variant B does with a URL: the status of the response is not
    looked at. *)
Lemma VariantB_loadImage_url (s : string) (st : St) :
  String.prefix "http://" s || String.prefix "https://" s = true ->
  VariantB.loadImage (JStr s) st =
  let fetched := record [EvLoadImage (JStr s); EvFetch s] st in
  match fetch s (world st) with
  | (Throw e, w) => (Throw e, {| world := w; trace := trace fetched |})
  | (Ok response, w) =>
      match arrayBuffer response with
      | Ok buffer => decodeImage buffer {| world := w; trace := trace fetched |}
      | Throw e => (Throw e, {| world := w; trace := trace fetched |})
      end
  end.
Proof.
  intros Hhttp. unfold VariantB.loadImage. run_monad. rewrite Hhttp.
  run_monad.
  destruct (fetch s (world st)) as [[response|e] w]; run_monad;
    [|now rewrite <- app_assoc].
  destruct (arrayBuffer response); run_monad; now rewrite <- app_assoc.
Qed.

(** What variant A does with any other string that does not begin with
    [data:image]. *)
Lemma VariantA_loadImage_path (s : string) (st : St) :
  String.prefix "data:image" s = false ->
  String.prefix "http://" s || String.prefix "https://" s = false ->
  VariantA.loadImage (JStr s) st =
  let opened := record [EvLoadImage (JStr s); EvReadFile (path_resolve s)] st in
  match readFileSync (path_resolve s) (world st) with
  | (Ok buffer, w) => decodeImage buffer {| world := w; trace := trace opened |}
  | (Throw e, w) =>
      (Throw {| message := "Failed to read local image file: " ++ message e |},
       {| world := w; trace := trace opened |})
  end.
Proof.
  intros Hdata Hhttp. unfold VariantA.loadImage. run_monad.
  rewrite Hdata, Hhttp. run_monad.
  destruct (readFileSync (path_resolve s) (world st)) as [[buffer|e] w];
    run_monad; now rewrite <- app_assoc.
Qed.

(** What variant B does with every string that is not a URL. *)
Lemma VariantB_loadImage_path (s : string) (st : St) :
  String.prefix "http://" s || String.prefix "https://" s = false ->
  VariantB.loadImage (JStr s) st =
  let opened := record [EvLoadImage (JStr s); EvReadFile (path_resolve s)] st in
  match readFileSync (path_resolve s) (world st) with
  | (Ok buffer, w) => decodeImage buffer {| world := w; trace := trace opened |}
  | (Throw e, w) => (Throw e, {| world := w; trace := trace opened |})
  end.
Proof.
  intros Hhttp. unfold VariantB.loadImage. run_monad. rewrite Hhttp.
  run_monad.
  destruct (readFileSync (path_resolve s) (world st)) as [[buffer|e] w];
    run_monad; now rewrite <- app_assoc.
Qed.

End ResolverFacts.

Section ResolverClaims.
Context `{Platform}.

(** In variant A a response that is not [ok] makes [loadImage] throw an
    error carrying the status text, nothing is decoded, and the request
    is answered 500 with that text. *)
Lemma VariantA_failed_fetch (s : string) (st : St) (response : FetchResponse)
    (w : World) (body : gmap string JsValue) :
  String.prefix "http://" s || String.prefix "https://" s = true ->
  fetch s (world st) = (Ok response, w) ->
  ok response = false ->
  VariantA.loadImage (JStr s) st =
    (Throw {| message := "Failed to fetch image from URL: "
                         ++ statusText response |},
     {| world := w; trace := trace st ++ [EvLoadImage (JStr s); EvFetch s] |}) /\
  (prop body "image1" = JStr s -> ToBoolean (prop body "image2") = true ->
   fst (compare_faces A true body st) =
     Ok (internal_error_response
           {| message := "Failed to fetch image from URL: "
                         ++ statusText response |})).
Proof.
  intros Hhttp Hfetch Hok.
  assert (VariantA.loadImage (JStr s) st =
    (Throw {| message := "Failed to fetch image from URL: "
                         ++ statusText response |},
     {| world := w; trace := trace st ++ [EvLoadImage (JStr s); EvFetch s] |}))
    as Hload.
  { rewrite VariantA_loadImage_url by assumption.
    cbv zeta. now rewrite Hfetch, Hok. }
  split; [exact Hload|].
  intros Himage1 Himage2. unfold compare_faces. cbn [negb image1_field
    image2_field loadImage].
  rewrite Himage1, Himage2. cbn [ToBoolean].
  destruct s as [|c s']; [discriminate|]. cbn [String.eqb negb orb].
  unfold try_catch. erewrite bind_throw by exact Hload. reflexivity.
Qed.

(** C6, as the code has it.  Variant A: a string made of one of the
    three data headers and a payload is decoded from the base64 payload,
    with no fetch and no file read; a string beginning with [http://] or
    [https://] is fetched; any other string that does not begin with
    [data:image] is read as a local path, a failed read throwing
    "Failed to read local image file: " followed by the cause.
    Variant B has no embedded-data branch: a string beginning with
    [http://] or [https://] is fetched and every other string is read
    as a local path, a failed read throwing the I/O error itself. *)
Theorem resolver_dispatch (s : string) (st : St) :
  (forall header payload : string,
     In header data_headers -> s = String.append header payload ->
     VariantA.loadImage (JStr s) st =
     decodeImage (Buffer_from_base64 payload)
       (record [EvLoadImage (JStr s)] st)) /\
  (String.prefix "http://" s || String.prefix "https://" s = true ->
     source_events (trace (snd (VariantA.loadImage (JStr s) st))) =
     source_events (trace st) ++ [EvFetch s]) /\
  (String.prefix "data:image" s = false ->
   String.prefix "http://" s || String.prefix "https://" s = false ->
     source_events (trace (snd (VariantA.loadImage (JStr s) st))) =
     source_events (trace st) ++ [EvReadFile (path_resolve s)] /\
     forall (e : JsError) (w : World),
       readFileSync (path_resolve s) (world st) = (Throw e, w) ->
       fst (VariantA.loadImage (JStr s) st) =
       Throw {| message := "Failed to read local image file: " ++ message e |}) /\
  (String.prefix "http://" s || String.prefix "https://" s = true ->
     source_events (trace (snd (VariantB.loadImage (JStr s) st))) =
     source_events (trace st) ++ [EvFetch s]) /\
  (String.prefix "http://" s || String.prefix "https://" s = false ->
     source_events (trace (snd (VariantB.loadImage (JStr s) st))) =
     source_events (trace st) ++ [EvReadFile (path_resolve s)] /\
     forall (e : JsError) (w : World),
       readFileSync (path_resolve s) (world st) = (Throw e, w) ->
       fst (VariantB.loadImage (JStr s) st) = Throw e).
Proof.
  split; [|split; [|split; [|split]]].
  - intros header payload Hheader ->. now apply VariantA_loadImage_data.
  - intros Hhttp. rewrite VariantA_loadImage_url by assumption. cbv zeta.
    destruct (fetch s (world st)) as [[response|e] w];
      [destruct (ok response); [destruct (arrayBuffer response)|]|];
      rewrite ?decodeImage_source_events; cbn [snd trace record];
      rewrite source_events_app; cbn; now rewrite ?app_nil_r.
  - intros Hdata Hhttp. rewrite VariantA_loadImage_path by assumption.
    cbv zeta. split.
    + destruct (readFileSync (path_resolve s) (world st)) as [[buffer|e] w];
        rewrite ?decodeImage_source_events; cbn [snd trace record];
        rewrite source_events_app; cbn; now rewrite ?app_nil_r.
    + now intros e w ->.
  - intros Hhttp. rewrite VariantB_loadImage_url by assumption. cbv zeta.
    destruct (fetch s (world st)) as [[response|e] w];
      [destruct (arrayBuffer response)|];
      rewrite ?decodeImage_source_events; cbn [snd trace record];
      rewrite source_events_app; cbn; now rewrite ?app_nil_r.
  - intros Hhttp. rewrite VariantB_loadImage_path by assumption.
    cbv zeta. split.
    + destruct (readFileSync (path_resolve s) (world st)) as [[buffer|e] w];
        rewrite ?decodeImage_source_events; cbn [snd trace record];
        rewrite source_events_app; cbn; now rewrite ?app_nil_r.
    + now intros e w ->.
Qed.

End ResolverClaims.

(** ** The code on the example platform *)

Module Examples.
Import JSNumber Fixture.
#[local] Existing Instance Fixture.platform.

#[local] Set Warnings "-inexact-float".

(** The default threshold is the number that the literal [0.6] denotes. *)
Example default_threshold_literal : default_threshold = 0.6%float.
Proof. reflexivity. Qed.

(** The falsy values of a body, and some truthy ones. *)
Example falsy_values :
  List.map ToBoolean
    [JUndefined; JNull; JBool false; JNum 0; JNum (-0); JNum PrimFloat.nan;
     JStr ""] = [false; false; false; false; false; false; false] /\
  List.map ToBoolean [JStr "0"; JNum 1; JArr []; JObj []; JBool true] =
    [true; true; true; true; true].
Proof. split; reflexivity. Qed.

Example group_against_person1 :
  fst (compare_faces A true (files A "group.jpg" "person1.jpg") start) =
  Ok (match_response false 2%float (JNum default_threshold) 4 1).
Proof. vm_compute. reflexivity. Qed.

Example lifecycle_all_loaded :
  lifecycle all_loaded =
  [Running false false; Running true false; Running true true].
Proof. reflexivity. Qed.

Example lifecycle_load_failure :
  lifecycle {| ssdMobilenetv1 := Ok tt;
               faceLandmark68Net := Throw {| message := "ENOENT" |};
               faceRecognitionNet := Ok tt |} =
  [Running false false; Exited 1; Exited 1].
Proof. reflexivity. Qed.

(** *** C1 on [group.jpg] against [person1.jpg] *)


(** *** C2 on [group.jpg] against [person1.jpg]: distances 30, 2, 6, 2 *)

Lemma distance_is_first_minimum_witness :
  exists (resp : Response) (st' : St) (i : nat) (d1 : Detection),
    compare_faces A true (files A "group.jpg" "person1.jpg") start =
      (Ok resp, st') /\
    status resp = 200%Z /\
    group !! i = Some d1 /\
    field "distance" (payload resp) = JNum (nn_distance person1 d1) /\
    (forall j d', group !! j = Some d' ->
       le (nn_distance person1 d1) (nn_distance person1 d') = true) /\
    (forall j d', j < i -> group !! j = Some d' ->
       lt (nn_distance person1 d1) (nn_distance person1 d') = true) /\
    (forall st,
       fst (forEach_best (FaceMatcher_new person1) group best_init st) =
       Ok (Some (findBestMatch (FaceMatcher_new person1) (descriptor d1)),
           nn_distance person1 d1)).
Proof.
  apply (distance_is_first_minimum A
           (files A "group.jpg" "person1.jpg") start
           (loaded "group.jpg" group "" [] 1)
           (loaded "group.jpg" group "person1.jpg" person1 2)
           group person1 group person1);
    try (vm_compute; (reflexivity || discriminate)).
  repeat constructor.
Defined.

(** *** C3 on [landscape.jpg], which has no face, against [person1.jpg] *)

Lemma no_face_gives_400_witness :
  exists (st' : St) (evs : list Event),
    compare_faces B true (files B "landscape.jpg" "person1.jpg") start =
      (Ok no_face_response, st') /\
    status no_face_response = 400%Z /\
    field "match" (payload no_face_response) = JBool false /\
    trace st' = trace start ++ evs /\
    Forall (fun ev => is_match_event ev = false) evs.
Proof.
  apply (no_face_gives_400 B
           (files B "landscape.jpg" "person1.jpg") start
           (loaded "landscape.jpg" landscape "" [] 1)
           (loaded "landscape.jpg" landscape "person1.jpg" person1 2)
           landscape person1 [] person1);
    try (vm_compute; reflexivity).
  left. reflexivity.
Defined.

(** *** C7 on [person1.jpg] against [person2.jpg] with threshold 0 *)

Lemma zero_threshold_no_match_unless_zero_distance_witness :
  exists (resp : Response) (st' : St) (dist : float),
    compare_faces A true
      (with_threshold (JNum zero) (files A "person1.jpg" "person2.jpg"))
      start = (Ok resp, st') /\
    status resp = 200%Z /\
    field "threshold" (payload resp) = JNum zero /\
    field "distance" (payload resp) = JNum dist /\
    (eq dist zero = false -> field "match" (payload resp) = JBool false).
Proof.
  apply (zero_threshold_no_match_unless_zero_distance A
           (with_threshold (JNum zero) (files A "person1.jpg" "person2.jpg"))
           start
           (loaded "person1.jpg" person1 "" [] 1)
           (loaded "person1.jpg" person1 "person2.jpg" person2 2)
           person1 person2 person1 person2);
    try (vm_compute; (reflexivity || discriminate)).
  repeat constructor.
Defined.

(** At distance exactly 0 the flag is false as well. *)
Example zero_threshold_zero_distance :
  fst (compare_faces A true
         (with_threshold (JNum zero) (files A "person1.jpg" "person1.jpg"))
         start) =
  Ok (match_response false zero (JNum zero) 1 1).
Proof. vm_compute. reflexivity. Qed.

(** *** C9 on [person1.jpg] against [person2.jpg]: without a threshold,
    and with the threshold 0 *)


(** *** C8 on a body without [image1] *)

Lemma missing_image_field_gives_400_witness :
  compare_faces A true (<["image2" := JStr "person1.jpg"]> ∅) start =
    (Ok (missing_image_response A), start) /\
  status (missing_image_response A) = 400%Z.
Proof.
  apply (missing_image_field_gives_400 A all_loaded (Running true true)
           (<["image2" := JStr "person1.jpg"]> ∅) start).
  - vm_compute. tauto.
  - reflexivity.
  - left. vm_compute. reflexivity.
Defined.

(** *** C10 on a body whose [image1Path] is the empty string *)

Lemma falsy_image_field_gives_400_witness :
  compare_faces B true (files B "" "person1.jpg") start =
    (Ok (missing_image_response B), start) /\
  post_compare_faces B (Running true true)
    (delete (image1_field B) (files B "" "person1.jpg")) start =
    Some (compare_faces B true (files B "" "person1.jpg") start) /\
  post_compare_faces B (Running true true)
    (delete (image2_field B) (files B "" "person1.jpg")) start =
    Some (compare_faces B true (files B "" "person1.jpg") start).
Proof.
  apply (falsy_image_field_gives_400 B all_loaded (Running true true)
           (files B "" "person1.jpg") start).
  - vm_compute. tauto.
  - reflexivity.
  - left. vm_compute. reflexivity.
Defined.

(** *** C6 and C5 on the example platform *)

Lemma resolver_dispatch_witness :
  VariantA.loadImage (JStr "data:image/jpeg;base64,EFGH") start =
    decodeImage (Buffer_from_base64 "EFGH")
      (record [EvLoadImage (JStr "data:image/jpeg;base64,EFGH")] start) /\
  source_events
    (trace (snd (VariantA.loadImage (JStr "https://example.com/pair.jpg")
                   start))) =
    source_events (trace start) ++ [EvFetch "https://example.com/pair.jpg"] /\
  (source_events
     (trace (snd (VariantA.loadImage (JStr "nobody.jpg") start))) =
     source_events (trace start) ++ [EvReadFile (path_resolve "nobody.jpg")] /\
   fst (VariantA.loadImage (JStr "nobody.jpg") start) =
     Throw {| message := "Failed to read local image file: ENOENT: no such file or directory, open '/srv/nobody.jpg'" |}) /\
  source_events
    (trace (snd (VariantB.loadImage (JStr "https://example.com/pair.jpg")
                   start))) =
    source_events (trace start) ++ [EvFetch "https://example.com/pair.jpg"] /\
  (source_events
     (trace (snd (VariantB.loadImage (JStr "nobody.jpg") start))) =
     source_events (trace start) ++ [EvReadFile (path_resolve "nobody.jpg")] /\
   fst (VariantB.loadImage (JStr "nobody.jpg") start) =
     Throw {| message := "ENOENT: no such file or directory, open '/srv/nobody.jpg'" |}).
Proof.
  split; [|split; [|split; [|split]]].
  - apply (proj1 (resolver_dispatch "data:image/jpeg;base64,EFGH" start)
             "data:image/jpeg;base64," "EFGH").
    + right. left. reflexivity.
    + reflexivity.
  - apply (proj1 (proj2 (resolver_dispatch "https://example.com/pair.jpg"
                           start))).
    reflexivity.
  - destruct (proj1 (proj2 (proj2 (resolver_dispatch "nobody.jpg" start))))
      as [Hevents Hfailure]; [reflexivity | reflexivity |].
    split; [exact Hevents|].
    apply (Hfailure
             {| message := "ENOENT: no such file or directory, open '/srv/nobody.jpg'" |}
             1).
    reflexivity.
  - apply (proj1 (proj2 (proj2 (proj2
             (resolver_dispatch "https://example.com/pair.jpg" start))))).
    reflexivity.
  - destruct (proj2 (proj2 (proj2 (proj2
               (resolver_dispatch "nobody.jpg" start)))))
      as [Hevents Hfailure]; [reflexivity |].
    split; [exact Hevents|].
    apply (Hfailure
             {| message := "ENOENT: no such file or directory, open '/srv/nobody.jpg'" |}
             1).
    reflexivity.
Defined.

(** Variant B reads a data URI as a local path: the file is looked up on
    disk and nothing is decoded from base64. *)
Lemma VariantB_reads_data_uri_as_path :
  String.prefix "data:image" "data:image/png;base64,EFGH" = true /\
  VariantB.loadImage (JStr "data:image/png;base64,EFGH") start =
    (Throw {| message := "ENOENT: no such file or directory, open '/srv/data:image/png;base64,EFGH'" |},
     {| world := 1;
        trace := [EvLoadImage (JStr "data:image/png;base64,EFGH");
                  EvReadFile "/srv/data:image/png;base64,EFGH"] |}) /\
  VariantB.loadImage (JStr "data:image/png;base64,EFGH") start <>
    decodeImage (Buffer_from_base64 "EFGH")
      (record [EvLoadImage (JStr "data:image/png;base64,EFGH")] start).
Proof.
  split; [reflexivity|]. split; [vm_compute; reflexivity|].
  vm_compute. discriminate.
Qed.

(** C5 on the example platform: [http://example.com/missing.jpg] is
    answered "Not Found" with an HTML body.  Variant A throws the error
    with the status text and decodes nothing; variant B hands the body
    to the decoder, and the error of the request is the decoder's. *)
Theorem failed_fetch_on_both_variants :
  fetch "http://example.com/missing.jpg" 0 =
    (Ok {| ok := false; statusText := "Not Found";
           arrayBuffer := Ok [Byte.x3c; Byte.x68; Byte.x31; Byte.x3e] |}, 1) /\
  VariantA.loadImage (JStr "http://example.com/missing.jpg") start =
    (Throw {| message := "Failed to fetch image from URL: Not Found" |},
     {| world := 1;
        trace := [EvLoadImage (JStr "http://example.com/missing.jpg");
                  EvFetch "http://example.com/missing.jpg"] |}) /\
  VariantB.loadImage (JStr "http://example.com/missing.jpg") start =
    (Throw {| message := "Input buffer contains unsupported image format" |},
     {| world := 1;
        trace := [EvLoadImage (JStr "http://example.com/missing.jpg");
                  EvFetch "http://example.com/missing.jpg";
                  EvDecode [Byte.x3c; Byte.x68; Byte.x31; Byte.x3e]] |}) /\
  fst (compare_faces B true
         (files B "http://example.com/missing.jpg" "person1.jpg") start) =
    Ok (internal_error_response
          {| message := "Input buffer contains unsupported image format" |}).
Proof. repeat split; vm_compute; reflexivity. Qed.

End Examples.

(** * Further properties of the code *)

(** ** More on the order of numbers *)

Module JSNumberOrder.
Import JSNumber JSNumberFacts.

Lemma SFltb_leb_trans (x y z : spec_float) :
  SFltb x y = true -> SFleb y z = true -> SFltb x z = true.
Proof. unfold SFltb, SFleb. sf_cases x y z. Qed.

(** Two numbers neither of which is below the other compare alike with
    every third number. *)
Lemma SFltb_indistinct (x y z : spec_float) :
  x <> S754_nan -> y <> S754_nan ->
  SFltb x y = false -> SFltb y x = false -> SFltb x z = SFltb y z.
Proof. unfold SFltb. sf_cases x y z. Qed.

Lemma SFeqb_refl (x : spec_float) : x <> S754_nan -> SFeqb x x = true.
Proof.
  unfold SFeqb. destruct x as [[]|[]| |[] m e]; simpl; try congruence;
    intros _; rewrite Z.compare_refl;
    change (Pos.compare_cont Eq) with Pos.compare;
    rewrite Pos.compare_refl; reflexivity.
Qed.

(** [x < y] and [y <= z] give [x < z]. *)
Lemma lt_le_trans_r (x y z : float) :
  lt x y = true -> le y z = true -> lt x z = true.
Proof. unfold lt, le. rewrite !ltb_spec, leb_spec. apply SFltb_leb_trans. Qed.

(** A number below another one is not [NaN]. *)
Lemma lt_eq_refl (x y : float) : lt x y = true -> eq x x = true.
Proof.
  intros Hlt. apply lt_not_nan in Hlt. unfold eq. rewrite FloatAxioms.eqb_spec.
  now apply SFeqb_refl.
Qed.

Lemma lt_indistinct (x y z u w : float) :
  lt x u = true -> lt y w = true ->
  lt x y = false -> lt y x = false -> lt x z = lt y z.
Proof.
  intros Hx Hy Hxy Hyx. apply lt_not_nan in Hx, Hy.
  unfold lt in *. rewrite ltb_spec in Hxy, Hyx. rewrite !ltb_spec.
  now apply SFltb_indistinct.
Qed.

(** A number that is not [NaN] and not below [y] is at least [y]. *)
Lemma le_of_not_lt_eq (x y : float) :
  eq x x = true -> eq y y = true -> lt x y = false -> le y x = true.
Proof.
  unfold eq, lt, le. rewrite !FloatAxioms.eqb_spec, ltb_spec, leb_spec.
  intros Hx Hy. apply SFleb_of_not_ltb; intros Hnan;
    [rewrite Hnan in Hx | rewrite Hnan in Hy]; discriminate.
Qed.

(** [==] is symmetric. *)
Lemma eq_sym (x y : float) : eq x y = eq y x.
Proof.
  unfold eq. rewrite !FloatAxioms.eqb_spec. unfold SFeqb.
  rewrite (SFcompare_antisym (Prim2SF y) (Prim2SF x)).
  destruct (SFcompare (Prim2SF y) (Prim2SF x)) as [[]|]; reflexivity.
Qed.

(** A number that is at least 0 is finite exactly when it is below
    [Infinity]. *)
Lemma is_finite_nonneg (x : float) :
  eq x x = true -> le zero x = true -> is_finite x = lt x Infinity.
Proof.
  unfold is_finite, is_nan, is_infinity, eq, le, lt, zero, Infinity.
  intros Hnan Hle. rewrite Hnan. cbn [negb orb].
  rewrite FloatAxioms.eqb_spec, ltb_spec, abs_spec.
  rewrite leb_spec in Hle.
  change (Prim2SF infinity) with (S754_infinity false).
  change (Prim2SF 0) with (S754_zero false) in Hle.
  destruct (Prim2SF x) as [[]|[]| |[] m e]; try discriminate; reflexivity.
Qed.

End JSNumberOrder.

(** ** Start-up *)


(** ** Every request is answered *)

Section Answers.
Context `{Platform}.

(** The handler with the models loaded and both image fields given,
    stage by stage. *)
Lemma compare_faces_stages (v : Variant) (body : gmap string JsValue) (st0 : St) :
  ToBoolean (prop body (image1_field v)) = true ->
  ToBoolean (prop body (image2_field v)) = true ->
  compare_faces v true body st0 =
  match loadImage v (prop body (image1_field v)) st0 with
  | (Throw e, st1) => (Ok (internal_error_response e), st1)
  | (Ok img1, st1) =>
      match loadImage v (prop body (image2_field v)) st1 with
      | (Throw e, st2) => (Ok (internal_error_response e), st2)
      | (Ok img2, st2) =>
          match detectAllFaces img1 with
          | Throw e =>
              (Ok (internal_error_response e), record [EvDetect img1] st2)
          | Ok detections1 =>
              match detectAllFaces img2 with
              | Throw e =>
                  (Ok (internal_error_response e),
                   record [EvDetect img1; EvDetect img2] st2)
              | Ok detections2 =>
                  if (length detections1 =? 0)%nat
                     || (length detections2 =? 0)%nat
                  then (Ok no_face_response,
                        record [EvDetect img1; EvDetect img2] st2)
                  else
                    (Ok (report
                           (snd (best_of detections1 detections2))
                           (threshold_of body)
                           (length detections1) (length detections2)),
                     record ([EvDetect img1; EvDetect img2;
                              EvFaceMatcher detections2]
                             ++ match_events detections1) st2)
              end
          end
      end
  end.
Proof.
  intros Himage1 Himage2.
  destruct (loadImage v (prop body (image1_field v)) st0)
    as [[img1|e] st1] eqn:Hload1.
  2:{ unfold compare_faces. cbn [negb]. rewrite Himage1, Himage2.
      cbn [negb orb]. unfold try_catch.
      now rewrite (bind_throw _ _ _ _ _ Hload1). }
  destruct (loadImage v (prop body (image2_field v)) st1)
    as [[img2|e] st2] eqn:Hload2.
  2:{ unfold compare_faces. cbn [negb]. rewrite Himage1, Himage2.
      cbn [negb orb]. unfold try_catch.
      rewrite (bind_ok _ _ _ _ _ Hload1).
      now rewrite (bind_throw _ _ _ _ _ Hload2). }
  destruct (detectAllFaces img1) as [detections1|e] eqn:Hdetect1.
  2:{ unfold compare_faces. cbn [negb]. rewrite Himage1, Himage2.
      cbn [negb orb]. unfold try_catch.
      rewrite (bind_ok _ _ _ _ _ Hload1), (bind_ok _ _ _ _ _ Hload2).
      unfold detect. rewrite bind_assoc, bind_emit, Hdetect1.
      reflexivity. }
  destruct (detectAllFaces img2) as [detections2|e] eqn:Hdetect2.
  2:{ unfold compare_faces. cbn [negb]. rewrite Himage1, Himage2.
      cbn [negb orb]. unfold try_catch.
      rewrite (bind_ok _ _ _ _ _ Hload1), (bind_ok _ _ _ _ _ Hload2).
      unfold detect. rewrite bind_assoc, bind_emit, Hdetect1, bind_call.
      rewrite bind_assoc, bind_emit, Hdetect2, record_app.
      reflexivity. }
  now apply (compare_faces_detected v body st0 st1 st2 img1 img2).
Qed.


(** On a body that is an object the handler is [compare_faces] on its
    properties, which read as [field] reads them. *)
Lemma compare_faces_handler_object (v : Variant) (modelsLoaded : bool)
    (props : list (string * JsValue)) (st : St) :
  compare_faces_handler v modelsLoaded (JObj props) st =
  compare_faces v modelsLoaded (list_to_map props) st.
Proof. destruct modelsLoaded; reflexivity. Qed.

Lemma prop_list_to_map (props : list (string * JsValue)) (name : string) :
  prop (list_to_map props) name = field name (JObj props).
Proof.
  unfold prop, field. induction props as [|[k value] props IH].
  - reflexivity.
  - cbn [list_to_map foldr find fst snd uncurry].
    destruct (String.eqb k name) eqn:Hk.
    + apply String.eqb_eq in Hk as ->. now rewrite lookup_insert_eq.
    + apply String.eqb_neq in Hk. now rewrite lookup_insert_ne.
Qed.


(** When an image cannot be resolved the request is answered 500 with
    the message of the error, and the handler stops where the error
    occurred: after a failure on the first image the second one is not
    resolved, and after a failure on the second nothing is detected. *)
Theorem resolution_failure_gives_500 (v : Variant)
    (body : gmap string JsValue) (st0 st1 : St) (e : JsError) :
  ToBoolean (prop body (image1_field v)) = true ->
  ToBoolean (prop body (image2_field v)) = true ->
  (loadImage v (prop body (image1_field v)) st0 = (Throw e, st1) ->
   compare_faces v true body st0 = (Ok (internal_error_response e), st1)) /\
  (forall (img1 : Image) (st2 : St),
     loadImage v (prop body (image1_field v)) st0 = (Ok img1, st1) ->
     loadImage v (prop body (image2_field v)) st1 = (Throw e, st2) ->
     compare_faces v true body st0 = (Ok (internal_error_response e), st2)) /\
  status (internal_error_response e) = 500%Z /\
  field "error" (payload (internal_error_response e)) =
    JStr ("Internal server error during face comparison: " ++ message e).
Proof.
  intros Himage1 Himage2. split; [|split; [|split; reflexivity]].
  - intros Hload1. rewrite compare_faces_stages by assumption.
    now rewrite Hload1.
  - intros img1 st2 Hload1 Hload2.
    rewrite compare_faces_stages by assumption.
    now rewrite Hload1, Hload2.
Qed.

(** When the detection pipeline throws the request is answered 500 with
    the message of the error: after a failure on the first image the
    second one is not analysed, and after a failure on the second no
    match is computed. *)
Theorem detection_failure_gives_500 (v : Variant)
    (body : gmap string JsValue) (st0 st1 st2 : St) (img1 img2 : Image)
    (e : JsError) :
  ToBoolean (prop body (image1_field v)) = true ->
  ToBoolean (prop body (image2_field v)) = true ->
  loadImage v (prop body (image1_field v)) st0 = (Ok img1, st1) ->
  loadImage v (prop body (image2_field v)) st1 = (Ok img2, st2) ->
  (detectAllFaces img1 = Throw e ->
   compare_faces v true body st0 =
   (Ok (internal_error_response e), record [EvDetect img1] st2)) /\
  (forall detections1 : list Detection,
     detectAllFaces img1 = Ok detections1 ->
     detectAllFaces img2 = Throw e ->
     compare_faces v true body st0 =
     (Ok (internal_error_response e),
      record [EvDetect img1; EvDetect img2] st2)).
Proof.
  intros Himage1 Himage2 Hload1 Hload2. split.
  - intros Hdetect1. rewrite compare_faces_stages by assumption.
    now rewrite Hload1, Hload2, Hdetect1.
  - intros detections1 Hdetect1 Hdetect2.
    rewrite compare_faces_stages by assumption.
    now rewrite Hload1, Hload2, Hdetect1, Hdetect2.
Qed.

(** An image field that is truthy but not a string (a number, [true],
    an array, an object) is answered 500: the call of [startsWith] on it
    throws before anything is fetched, read or decoded, and the other
    image is not resolved. *)
Theorem non_string_image_gives_500 (v : Variant)
    (body : gmap string JsValue) (st0 : St) :
  ToBoolean (prop body (image1_field v)) = true ->
  ToBoolean (prop body (image2_field v)) = true ->
  is_string (prop body (image1_field v)) = false ->
  exists e : JsError,
    compare_faces v true body st0 =
    (Ok (internal_error_response e),
     record [EvLoadImage (prop body (image1_field v))] st0).
Proof.
  intros Himage1 Himage2 Hstring.
  rewrite compare_faces_stages by assumption.
  destruct v; unfold loadImage, VariantA.loadImage, VariantB.loadImage;
    rewrite bind_emit;
    destruct (prop body _); try discriminate Hstring;
    eexists; reflexivity.
Qed.

End Answers.

(** ** The loop over the detections of the first image *)

Section Loop.
Context `{Platform}.
Import JSNumber JSNumberFacts JSNumberOrder.

(** What the loop ends with, whatever the distances are: its initial
    state when no distance is below [Infinity], and otherwise the match
    of a detection below which no detection lies. *)
Lemma best_of_cases (detections2 detections1 : list Detection) :
  (forall j d', detections1 !! j = Some d' ->
     lt (nn_distance detections2 d')
        (snd (best_of detections1 detections2)) = false) /\
  ((best_of detections1 detections2 = best_init /\
    Forall (fun d => lt (nn_distance detections2 d) Infinity = false)
      detections1) \/
   (exists (i : nat) (d1 : Detection),
      detections1 !! i = Some d1 /\
      best_of detections1 detections2 =
        (Some (findBestMatch (FaceMatcher_new detections2) (descriptor d1)),
         nn_distance detections2 d1) /\
      lt (nn_distance detections2 d1) Infinity = true)).
Proof.
  induction detections1 as [|x l [IHmin IH]] using rev_ind.
  - split; [intros j d' Hd'; discriminate | left; split; constructor].
  - rewrite best_of_snoc. unfold best_step.
    fold (nn_distance detections2 x).
    destruct (lt (nn_distance detections2 x) (snd (best_of l detections2)))
      eqn:Hlt; cbn [snd].
    + split.
      * intros j d' Hd'. apply lookup_snoc_Some in Hd' as [[_ Hd']|[_ <-]];
          [|apply lt_irrefl].
        destruct (lt (nn_distance detections2 d') (nn_distance detections2 x))
          eqn:Hd'x; [|reflexivity].
        rewrite <- (IHmin _ _ Hd'). symmetry. eapply lt_trans; eassumption.
      * right. exists (length l), x.
        split; [now rewrite list_lookup_middle|]. split; [reflexivity|].
        destruct IH as [[Hinit _]|(i & d1 & _ & Hbest & Hd1)].
        -- now rewrite Hinit in Hlt.
        -- rewrite Hbest in Hlt. eapply lt_trans; eassumption.
    + split.
      * intros j d' Hd'. apply lookup_snoc_Some in Hd' as [[_ Hd']|[_ <-]];
          [now apply (IHmin j) | assumption].
      * destruct IH as [[Hinit Hall]|(i & d1 & Hi & Hbest & Hd1)].
        -- left. split; [assumption|]. apply Forall_app. split; [assumption|].
           constructor; [|constructor]. now rewrite Hinit in Hlt.
        -- right. exists i, d1. split; [now apply lookup_app_l_Some|].
           now split.
Qed.

(** The distance the loop ends with is never [NaN]. *)
Lemma best_of_not_nan (detections2 detections1 : list Detection) :
  eq (snd (best_of detections1 detections2))
     (snd (best_of detections1 detections2)) = true.
Proof.
  destruct (best_of_cases detections2 detections1)
    as [_ [[-> _]|(i & d1 & _ & -> & Hd1)]]; [reflexivity|].
  eapply lt_eq_refl. exact Hd1.
Qed.

(** The loop, for any distances the matcher may return, [NaN] and
    [Infinity] included: it ends with a distance that is not [NaN] and
    below which no detection of the first image lies; it keeps
    [bestMatch = null] and [bestDistance = Infinity] exactly when no
    distance is below [Infinity], and otherwise it keeps the match of
    one detection of the first image together with its distance. *)
Theorem loop_keeps_a_seen_minimum (detections1 detections2 : list Detection)
    (st : St) :
  exists (best : Best) (st' : St),
    forEach_best (FaceMatcher_new detections2) detections1 best_init st =
      (Ok best, st') /\
    eq (snd best) (snd best) = true /\
    (forall j d', detections1 !! j = Some d' ->
       lt (nn_distance detections2 d') (snd best) = false) /\
    ((best = (None, Infinity) /\
      Forall (fun d => lt (nn_distance detections2 d) Infinity = false)
        detections1) \/
     (exists (i : nat) (d1 : Detection),
        detections1 !! i = Some d1 /\
        best =
          (Some (findBestMatch (FaceMatcher_new detections2) (descriptor d1)),
           nn_distance detections2 d1) /\
        lt (nn_distance detections2 d1) Infinity = true)).
Proof.
  eexists _, _. split; [apply forEach_best_run|].
  fold (best_of detections1 detections2).
  split; [apply best_of_not_nan|]. apply best_of_cases.
Qed.

(** The order in which the pipeline lists the faces of the first image
    does not matter: for distances that are real numbers, the loop over
    a permutation of the detections ends with a distance that is
    neither below nor above the original one, and that compares alike
    with every threshold. *)
Theorem loop_independent_of_order (detections1 detections1' detections2
    : list Detection) (st : St) :
  detections1 ≡ₚ detections1' ->
  Forall (fun d => is_real (nn_distance detections2 d)) detections1 ->
  exists (best best' : Best),
    fst (forEach_best (FaceMatcher_new detections2) detections1
           best_init st) = Ok best /\
    fst (forEach_best (FaceMatcher_new detections2) detections1'
           best_init st) = Ok best' /\
    lt (snd best) (snd best') = false /\
    lt (snd best') (snd best) = false /\
    (forall threshold : JsValue,
       js_lt (snd best) threshold = js_lt (snd best') threshold).
Proof.
  intros Hperm Hreal. eexists _, _.
  rewrite !forEach_best_run. split; [reflexivity|]. split; [reflexivity|].
  fold (best_of detections1 detections2) (best_of detections1' detections2).
  destruct detections1 as [|d ds].
  { apply Permutation_nil_l in Hperm as <-.
    split; [apply not_Infinity_lt|]. split; [apply not_Infinity_lt|].
    reflexivity. }
  assert (Hreal' : Forall (fun d => is_real (nn_distance detections2 d))
                     detections1') by now rewrite <- Hperm.
  destruct (best_of_first_minimum detections2 (d :: ds))
    as (i & d1 & Hi & -> & _ & Hmin); [discriminate | assumption |].
  destruct (best_of_first_minimum detections2 detections1')
    as (i' & d1' & Hi' & -> & _ & Hmin'); [|assumption|].
  { intros ->. apply Permutation_nil_r in Hperm. discriminate. }
  cbn [snd].
  assert (Hd1 : d1 ∈ detections1').
  { rewrite <- Hperm. eapply list_elem_of_lookup_2. exact Hi. }
  assert (Hd1' : d1' ∈ d :: ds).
  { rewrite Hperm. eapply list_elem_of_lookup_2. exact Hi'. }
  apply list_elem_of_lookup_1 in Hd1 as [j Hj].
  apply list_elem_of_lookup_1 in Hd1' as [j' Hj'].
  pose proof (Hmin' _ _ Hj) as H1. pose proof (Hmin _ _ Hj') as H2.
  split; [assumption|]. split; [assumption|].
  intros threshold. unfold js_lt.
  destruct (ToNumber threshold) as [y|e]; [|reflexivity]. f_equal.
  eapply lt_indistinct; [| |eassumption|eassumption].
  - exact (Forall_lookup_1 _ _ _ _ Hreal Hi).
  - exact (Forall_lookup_1 _ _ _ _ Hreal' Hi').
Qed.

End Loop.

(** ** More on the image resolver *)

Lemma prefix_split (p s : string) :
  String.prefix p s = true -> s = String.append p (string_drop (String.length p) s).
Proof.
  revert s. induction p as [|a p IH]; intros s Hp.
  - cbn. unfold string_drop. now rewrite Nat.sub_0_r, substring_whole.
  - destruct s as [|b s]; [discriminate|]. cbn [String.prefix] in Hp.
    destruct (ascii_dec a b) as [->|]; [|discriminate].
    change (string_drop (String.length (String b p)) (String b s))
      with (string_drop (String.length p) s).
    change (String b s = String b (String.append p
                                     (string_drop (String.length p) s))).
    f_equal. now apply IH.
Qed.

Lemma strip_data_header_none (s : string) :
  Forall (fun header => String.prefix header s = false) data_headers ->
  strip_data_header s = s.
Proof.
  intros Hnone. unfold strip_data_header.
  apply Forall_cons_1 in Hnone as [-> Hnone].
  apply Forall_cons_1 in Hnone as [-> Hnone].
  now apply Forall_cons_1 in Hnone as [-> _].
Qed.

(** The regular expression of variant A takes one header off the front
    of a string and no more, even when the rest begins with a header
    again; a string that begins with none of the three headers is left
    as it is; in every case the result is the string without a prefix
    that is empty or one of the three headers. *)
Theorem strip_data_header_removes_one_header (s : string) :
  (forall header : string,
     In header data_headers ->
     strip_data_header (String.append header s) = s) /\
  (Forall (fun header => String.prefix header s = false) data_headers ->
   strip_data_header s = s) /\
  (exists header : string,
     In header ("" :: data_headers) /\
     s = String.append header (strip_data_header s)).
Proof.
  split; [|split].
  - intros header Hheader. now apply strip_data_header_app.
  - apply strip_data_header_none.
  - unfold strip_data_header, data_headers.
    destruct (String.prefix "data:image/png;base64," s) eqn:Hpng;
      [eexists; split; [right; left; reflexivity | now apply prefix_split]|].
    destruct (String.prefix "data:image/jpeg;base64," s) eqn:Hjpeg;
      [eexists; split; [right; right; left; reflexivity
                       | now apply prefix_split]|].
    destruct (String.prefix "data:image/jpg;base64," s) eqn:Hjpg;
      [eexists; split; [right; right; right; left; reflexivity
                       | now apply prefix_split]|].
    exists "". split; [left|]; reflexivity.
Qed.

Section ResolverMore.
Context `{Platform}.

(** Variant A on every string that begins with [data:image]. *)
Lemma VariantA_loadImage_embedded (s : string) (st : St) :
  String.prefix "data:image" s = true ->
  VariantA.loadImage (JStr s) st =
  decodeImage (Buffer_from_base64 (strip_data_header s))
    (record [EvLoadImage (JStr s)] st).
Proof.
  intros Hdata. unfold VariantA.loadImage. rewrite bind_emit.
  cbn [startsWith_receiver]. now rewrite bind_ret, Hdata, bind_ret.
Qed.

(** In variant A a string that begins with [data:image] but with none
    of the three headers (another image type, another encoding) is
    handed to the base64 decoder whole, its header included, and is
    neither fetched nor read from disk. *)
Theorem VariantA_decodes_unlisted_data_whole (s : string) (st : St) :
  String.prefix "data:image" s = true ->
  Forall (fun header => String.prefix header s = false) data_headers ->
  VariantA.loadImage (JStr s) st =
  decodeImage (Buffer_from_base64 s) (record [EvLoadImage (JStr s)] st).
Proof.
  intros Hdata Hnone. rewrite VariantA_loadImage_embedded by assumption.
  now rewrite strip_data_header_none.
Qed.

Lemma decodeImage_run (buffer : Buffer) (st : St) :
  exists r : Outcome Image,
    decodeImage buffer st = (r, record [EvDecode buffer] st).
Proof.
  unfold decodeImage. rewrite bind_emit. unfold bind, call, ret.
  destruct (sharp_resize buffer) as [image|e];
    [destruct (Image_src image) as [img|e]|]; eexists; reflexivity.
Qed.

(** When the fetch itself is rejected (no connection, bad host) both
    variants throw that error unchanged and decode nothing. *)
Theorem fetch_rejection_propagates (v : Variant) (s : string) (st : St)
    (e : JsError) (w : World) :
  String.prefix "http://" s || String.prefix "https://" s = true ->
  fetch s (world st) = (Throw e, w) ->
  loadImage v (JStr s) st =
  (Throw e,
   {| world := w; trace := trace st ++ [EvLoadImage (JStr s); EvFetch s] |}).
Proof.
  intros Hhttp Hfetch. destruct v; unfold loadImage.
  - rewrite VariantA_loadImage_url by assumption. cbv zeta.
    now rewrite Hfetch.
  - rewrite VariantB_loadImage_url by assumption. cbv zeta.
    now rewrite Hfetch.
Qed.

(** A successful resolution decodes exactly the bytes that were
    obtained: the body of the response for a URL, the content of the
    file for a path, in both variants (in variant A for a response
    that is [ok] and a string that does not begin with [data:image]). *)
Theorem loadImage_decodes_what_it_obtained (v : Variant) (s : string)
    (st : St) (buffer : Buffer) (w : World) :
  (forall response : FetchResponse,
     String.prefix "http://" s || String.prefix "https://" s = true ->
     fetch s (world st) = (Ok response, w) ->
     ok response = true ->
     arrayBuffer response = Ok buffer ->
     loadImage v (JStr s) st =
     decodeImage buffer
       {| world := w;
          trace := trace st ++ [EvLoadImage (JStr s); EvFetch s] |}) /\
  (String.prefix "data:image" s = false ->
   String.prefix "http://" s || String.prefix "https://" s = false ->
   readFileSync (path_resolve s) (world st) = (Ok buffer, w) ->
   loadImage v (JStr s) st =
   decodeImage buffer
     {| world := w;
        trace := trace st
                 ++ [EvLoadImage (JStr s); EvReadFile (path_resolve s)] |}).
Proof.
  split.
  - intros response Hhttp Hfetch Hok Hbody. destruct v; unfold loadImage.
    + rewrite VariantA_loadImage_url by assumption. cbv zeta.
      now rewrite Hfetch, Hok, Hbody.
    + rewrite VariantB_loadImage_url by assumption. cbv zeta.
      now rewrite Hfetch, Hbody.
  - intros Hdata Hhttp Hread. destruct v; unfold loadImage.
    + rewrite VariantA_loadImage_path by assumption. cbv zeta.
      now rewrite Hread.
    + rewrite VariantB_loadImage_path by assumption. cbv zeta.
      now rewrite Hread.
Qed.

End ResolverMore.

Section ResolverEvents.
Context `{Platform}.

Ltac resolver_events_step :=
  first
    [ apply new_events_ret | apply new_events_throw | apply new_events_call
    | apply new_events_io | apply new_events_emit; reflexivity
    | apply new_events_bind; [|intros ?]
    | apply new_events_try_catch; [|intros ?] ].

(** Resolving an image only records events of the resolver. *)
Lemma loadImage_resolver_events (v : Variant) (imageSource : JsValue) :
  new_events (loadImage v imageSource)
    (fun ev => is_resolver_event ev = true).
Proof.
  destruct v; unfold loadImage, VariantA.loadImage, VariantB.loadImage,
    decodeImage, startsWith_receiver;
    repeat first
      [ resolver_events_step
      | match goal with
        | |- new_events (match ?x with _ => _ end) _ => destruct x
        end ].
Qed.

Ltac resolved_leaf :=
  eexists; split;
  [ unfold record; cbn [snd fst trace world]; rewrite <- ?app_assoc;
    reflexivity
  | cbn; repeat split; try lia; try discriminate; repeat constructor ].

(** One call of [loadImage], whatever its argument and its outcome,
    does at most one network or disk operation and hands at most one
    buffer to the decoder; when it returns an image exactly one buffer
    was decoded; and when it does no network or disk operation the
    world is as it was. *)
Theorem loadImage_reads_and_decodes_at_most_once (v : Variant)
    (imageSource : JsValue) (st : St) :
  exists evs : list Event,
    trace (snd (loadImage v imageSource st)) =
      trace st ++ EvLoadImage imageSource :: evs /\
    count_events is_source_event evs <= 1 /\
    count_events is_decode_event evs <= 1 /\
    (is_Ok (fst (loadImage v imageSource st)) = true ->
     count_events is_decode_event evs = 1) /\
    (count_events is_source_event evs = 0 ->
     world (snd (loadImage v imageSource st)) = world st) /\
    Forall (fun ev => is_resolver_event ev = true) evs.
Proof.
  destruct (is_string imageSource) eqn:Hstring.
  2:{ destruct v; unfold loadImage, VariantA.loadImage, VariantB.loadImage;
        rewrite bind_emit; destruct imageSource; try discriminate Hstring;
        resolved_leaf. }
  destruct imageSource as [| | | |s| |]; try discriminate Hstring.
  destruct (String.prefix "http://" s || String.prefix "https://" s)
    eqn:Hhttp.
  - assert (Hshape : exists r evs w,
              loadImage v (JStr s) st =
                (r, {| world := w;
                       trace := trace st ++ EvLoadImage (JStr s) :: evs |}) /\
              (evs = [EvFetch s] /\ is_Ok r = false \/
               exists buffer, evs = [EvFetch s; EvDecode buffer])).
    { destruct v; unfold loadImage;
        [rewrite VariantA_loadImage_url by assumption
        |rewrite VariantB_loadImage_url by assumption]; cbv zeta;
        destruct (fetch s (world st)) as [[response|e] w];
        try destruct (ok response);
        try destruct (arrayBuffer response) as [buffer|e];
        try (destruct (decodeImage_run buffer
               {| world := w;
                  trace := trace (record [EvLoadImage (JStr s); EvFetch s]
                                    st) |}) as [r ->]);
        eexists _, _, _;
        (split; [unfold record; cbn [trace world]; rewrite <- ?app_assoc;
                 reflexivity|]);
        first [left; split; reflexivity | right; eexists; reflexivity]. }
    destruct Hshape as (r & evs & w & -> & [[-> Hr]|[buffer ->]]);
      resolved_leaf.
    rewrite Hr. discriminate.
  - assert (Hshape : exists r evs w,
              loadImage v (JStr s) st =
                (r, {| world := w;
                       trace := trace st ++ EvLoadImage (JStr s) :: evs |}) /\
              (evs = [EvReadFile (path_resolve s)] /\ is_Ok r = false \/
               (exists buffer,
                  evs = [EvReadFile (path_resolve s); EvDecode buffer]) \/
               (exists buffer, evs = [EvDecode buffer] /\ w = world st))).
    { destruct v; unfold loadImage.
      - destruct (String.prefix "data:image" s) eqn:Hdata.
        + rewrite VariantA_loadImage_embedded by assumption.
          destruct (decodeImage_run (Buffer_from_base64 (strip_data_header s))
                      (record [EvLoadImage (JStr s)] st)) as [r ->].
          eexists _, _, _.
          split; [unfold record; cbn [trace world]; rewrite <- ?app_assoc;
                  reflexivity|].
          right. right. eexists. split; reflexivity.
        + rewrite VariantA_loadImage_path by assumption. cbv zeta.
          destruct (readFileSync (path_resolve s) (world st))
            as [[buffer|e] w];
            try (destruct (decodeImage_run buffer
                   {| world := w;
                      trace := trace (record [EvLoadImage (JStr s);
                                              EvReadFile (path_resolve s)]
                                        st) |}) as [r ->]);
            eexists _, _, _;
            (split; [unfold record; cbn [trace world]; rewrite <- ?app_assoc;
                     reflexivity|]);
            first [left; split; reflexivity
                  | right; left; eexists; reflexivity].
      - rewrite VariantB_loadImage_path by assumption. cbv zeta.
        destruct (readFileSync (path_resolve s) (world st))
          as [[buffer|e] w];
          try (destruct (decodeImage_run buffer
                 {| world := w;
                    trace := trace (record [EvLoadImage (JStr s);
                                            EvReadFile (path_resolve s)]
                                      st) |}) as [r ->]);
          eexists _, _, _;
          (split; [unfold record; cbn [trace world]; rewrite <- ?app_assoc;
                   reflexivity|]);
          first [left; split; reflexivity
                | right; left; eexists; reflexivity]. }
    destruct Hshape
      as (r & evs & w & -> & [[-> Hr]|[[buffer ->]|(buffer & -> & ->)]]);
      resolved_leaf.
    rewrite Hr. discriminate.
Qed.

End ResolverEvents.

(** ** More on the comparison *)

Lemma prop_insert_threshold (v : Variant) (body : gmap string JsValue)
    (t : JsValue) :
  prop (<["threshold" := t]> body) (image1_field v) =
    prop body (image1_field v) /\
  prop (<["threshold" := t]> body) (image2_field v) =
    prop body (image2_field v) /\
  prop (<["threshold" := t]> body) "threshold" = t.
Proof.
  unfold prop. rewrite lookup_insert_eq.
  rewrite !lookup_insert_ne by (destruct v; discriminate).
  repeat split.
Qed.

Section Reports.
Context `{Platform}.
Import JSNumber JSNumberFacts JSNumberOrder.

(** A request, handled with the models loaded, whose two image fields
    resolve to images in which the pipeline detects at least one face
    each. *)
Variables (v : Variant) (body : gmap string JsValue).
Variables (st0 st1 st2 : St) (img1 img2 : Image).
Variables (detections1 detections2 : list Detection).
Hypothesis image1_given : ToBoolean (prop body (image1_field v)) = true.
Hypothesis image2_given : ToBoolean (prop body (image2_field v)) = true.
Hypothesis image1_loaded :
  loadImage v (prop body (image1_field v)) st0 = (Ok img1, st1).
Hypothesis image2_loaded :
  loadImage v (prop body (image2_field v)) st1 = (Ok img2, st2).
Hypothesis image1_detected : detectAllFaces img1 = Ok detections1.
Hypothesis image2_detected : detectAllFaces img2 = Ok detections2.
Hypothesis faces1 : length detections1 <> 0.
Hypothesis faces2 : length detections2 <> 0.

Lemma compare_faces_report :
  compare_faces v true body st0 =
  (Ok (report (snd (best_of detections1 detections2)) (threshold_of body)
         (length detections1) (length detections2)),
   record ([EvDetect img1; EvDetect img2; EvFaceMatcher detections2]
           ++ match_events detections1) st2).
Proof.
  now apply (compare_faces_matched v body st0 st1 st2 img1 img2).
Qed.

(** The comparison with the threshold throws exactly when the threshold
    does not convert to a primitive value, and the answer is then 500. *)
Lemma report_status (x : float) (threshold : JsValue) (n1 n2 : nat) :
  status (report x threshold n1 n2) =
  if to_primitive_throws threshold then 500%Z else 200%Z.
Proof.
  unfold report, js_lt, ToNumber.
  destruct threshold; try reflexivity;
    destruct (to_primitive_throws _); reflexivity.
Qed.

(** What [JSON.stringify] makes of the [match] and the [distance] of a
    report. *)
Lemma wire_match_response (isMatch : bool) (x : float) (threshold : JsValue)
    (n1 n2 : nat) :
  field "match" (wire_body (match_response isMatch x threshold n1 n2)) =
    JBool isMatch /\
  field "distance" (wire_body (match_response isMatch x threshold n1 n2)) =
    stringify_number x.
Proof. split; reflexivity. Qed.

(** The order of the work of a comparison: both images are resolved,
    then the first and the second are analysed, then one matcher is
    built from the detections of the second image and queried once for
    each detection of the first, in their order.  The request is then
    answered 200, unless the threshold is an object or an array that
    does not convert to a primitive value: the comparison with the
    distance then throws, after all this work, and the answer is 500. *)
Theorem comparison_steps_in_order :
  exists (resp : Response) (st' : St) (resolving : list Event),
    compare_faces v true body st0 = (Ok resp, st') /\
    status resp =
      (if to_primitive_throws (threshold_of body) then 500%Z else 200%Z) /\
    trace st' =
      trace st0 ++ resolving
      ++ [EvDetect img1; EvDetect img2; EvFaceMatcher detections2]
      ++ List.map (fun d => EvFindBestMatch (descriptor d)) detections1 /\
    Forall (fun ev => is_resolver_event ev = true) resolving.
Proof.
  destruct (loadImage_resolver_events _ _ _ _ _ image1_loaded)
    as (evs1 & Ht1 & Hevs1).
  destruct (loadImage_resolver_events _ _ _ _ _ image2_loaded)
    as (evs2 & Ht2 & Hevs2).
  eexists _, _, (evs1 ++ evs2). split; [apply compare_faces_report|].
  split; [apply report_status|]. split.
  - unfold record, match_events. cbn [trace]. rewrite Ht2, Ht1.
    now rewrite <- !app_assoc.
  - now apply Forall_app.
Qed.

(** When no nearest-neighbour distance is below [Infinity] (the matcher
    returns [NaN] or [Infinity] for every face) and the threshold
    converts to a number, the answer is still a 200: the object handed
    to [res.json] holds the distance [Infinity] and no match, whatever
    the threshold of the request, and in the body that is sent the
    distance is [null], next to [match: false]. *)
Theorem degenerate_distances_never_match :
  to_primitive_throws (threshold_of body) = false ->
  Forall (fun d => lt (nn_distance detections2 d) Infinity = false)
    detections1 ->
  exists resp : Response,
    compare_faces v true body st0 =
    (Ok resp,
     record ([EvDetect img1; EvDetect img2; EvFaceMatcher detections2]
             ++ match_events detections1) st2) /\
    resp = match_response false Infinity (threshold_of body)
             (length detections1) (length detections2) /\
    status resp = 200%Z /\
    field "match" (wire_body resp) = JBool false /\
    field "distance" (wire_body resp) = JNull.
Proof.
  intros Hconv Hall.
  assert (Hresp : report (snd (best_of detections1 detections2))
                    (threshold_of body) (length detections1)
                    (length detections2) =
                  match_response false Infinity (threshold_of body)
                    (length detections1) (length detections2)).
  { destruct (best_of_cases detections2 detections1)
      as [_ [[-> _]|(i & d1 & Hi & _ & Hd1)]].
    - cbn [best_init snd].
      destruct (report_converts Infinity (threshold_of body)
                  (length detections1) (length detections2) Hconv)
        as (isMatch & Hlt & ->).
      unfold js_lt in Hlt. destruct (ToNumber _) as [y|e]; [|discriminate].
      rewrite not_Infinity_lt in Hlt. now injection Hlt as <-.
    - rewrite (Forall_lookup_1 _ _ _ _ Hall Hi) in Hd1. discriminate. }
  eexists. split; [rewrite compare_faces_report, Hresp; reflexivity|].
  split; [reflexivity|]. split; [reflexivity|].
  split; [apply wire_match_response|].
  now rewrite (proj2 (wire_match_response _ _ _ _ _)).
Qed.

(** A reported match is the match of an actual face: when [match] is
    true, the reported distance is the nearest-neighbour distance of
    one detection of the first image, it is below the threshold and
    below [Infinity], and no detection of the first image has a smaller
    one.  Nothing is assumed of the distances. *)
Theorem match_has_a_witness (resp : Response) (st' : St) :
  compare_faces v true body st0 = (Ok resp, st') ->
  field "match" (payload resp) = JBool true ->
  exists (i : nat) (d1 : Detection),
    detections1 !! i = Some d1 /\
    field "distance" (payload resp) = JNum (nn_distance detections2 d1) /\
    js_lt (nn_distance detections2 d1) (threshold_of body) = Ok true /\
    lt (nn_distance detections2 d1) Infinity = true /\
    (forall j d', detections1 !! j = Some d' ->
       lt (nn_distance detections2 d') (nn_distance detections2 d1) = false).
Proof.
  rewrite compare_faces_report. intros Hrun Hmatch.
  injection Hrun as <- _. unfold report in Hmatch |- *.
  destruct (js_lt (snd (best_of detections1 detections2)) (threshold_of body))
    as [isMatch|e] eqn:Hlt; [|discriminate Hmatch].
  cbn [match_response json status payload field find fst snd String.eqb
       Ascii.eqb Bool.eqb] in Hmatch |- *.
  injection Hmatch as ->.
  destruct (best_of_cases detections2 detections1)
    as [Hmin [[Hinit _]|(i & d1 & Hi & Hbest & Hd1)]].
  - rewrite Hinit in Hlt. cbn [best_init snd] in Hlt.
    unfold js_lt in Hlt. destruct (ToNumber _) as [y|e]; [|discriminate].
    rewrite not_Infinity_lt in Hlt. discriminate.
  - rewrite Hbest in Hlt, Hmin |- *. cbn [snd] in Hlt, Hmin |- *.
    exists i, d1. repeat split; assumption.
Qed.

(** When the matcher returns no negative distance and the threshold
    converts to a number, the answer is a 200 whose distance is a
    number (not [NaN]) that is at least 0.  In the body that is sent it
    is a number at least 0 as well, equal to the computed one, when a
    face gave a distance below [Infinity]; otherwise the loop kept
    [Infinity] and the body holds [null]. *)
Theorem reported_distance_not_negative :
  to_primitive_throws (threshold_of body) = false ->
  Forall (fun d => lt (nn_distance detections2 d) zero = false) detections1 ->
  exists (resp : Response) (st' : St) (dist : float),
    compare_faces v true body st0 = (Ok resp, st') /\
    status resp = 200%Z /\
    field "distance" (payload resp) = JNum dist /\
    eq dist dist = true /\
    le zero dist = true /\
    (lt dist Infinity = true ->
     exists w : float,
       field "distance" (wire_body resp) = JNum w /\
       eq w dist = true /\ le zero w = true) /\
    (lt dist Infinity = false ->
     field "distance" (wire_body resp) = JNull).
Proof.
  intros Hconv Hnonneg.
  destruct (report_converts (snd (best_of detections1 detections2))
              (threshold_of body) (length detections1) (length detections2)
              Hconv) as (isMatch & _ & Hreport).
  assert (Hnan : eq (snd (best_of detections1 detections2))
                   (snd (best_of detections1 detections2)) = true)
    by apply best_of_not_nan.
  assert (Hle : le zero (snd (best_of detections1 detections2)) = true).
  { apply le_of_not_lt_eq; [apply best_of_not_nan | reflexivity |].
    apply best_of_not_below; [apply not_Infinity_lt | assumption]. }
  eexists _, _, _.
  split; [rewrite compare_faces_report, Hreport; reflexivity|].
  split; [reflexivity|]. split; [reflexivity|].
  split; [exact Hnan|]. split; [exact Hle|].
  rewrite (proj2 (wire_match_response _ _ _ _ _)). unfold stringify_number.
  rewrite (is_finite_nonneg _ Hnan Hle). split.
  - intros ->.
    destruct (eq (snd (best_of detections1 detections2)) zero) eqn:Hzero.
    + exists zero. split; [reflexivity|].
      split; [now rewrite eq_sym | reflexivity].
    + eexists. split; [reflexivity|]. now split.
  - now intros ->.
Qed.

(** Raising the threshold never loses a match: two requests that differ
    only in their numeric threshold report the same distance, and if
    the one with the lower threshold matches, so does the other. *)
Theorem raising_threshold_keeps_match (t t' : float) :
  le t t' = true ->
  exists (dist : float) (isMatch isMatch' : bool) (st' : St),
    compare_faces v true (<["threshold" := JNum t]> body) st0 =
      (Ok (match_response isMatch dist (JNum t)
             (length detections1) (length detections2)), st') /\
    compare_faces v true (<["threshold" := JNum t']> body) st0 =
      (Ok (match_response isMatch' dist (JNum t')
             (length detections1) (length detections2)), st') /\
    (isMatch = true -> isMatch' = true).
Proof.
  intros Hle.
  destruct (prop_insert_threshold v body (JNum t)) as (H1 & H2 & H3).
  destruct (prop_insert_threshold v body (JNum t')) as (H1' & H2' & H3').
  eexists _, _, _, _. split; [|split].
  - rewrite (compare_faces_matched v (<["threshold" := JNum t]> body)
               st0 st1 st2 img1 img2 detections1 detections2);
      rewrite ?H1, ?H2; try assumption.
    unfold threshold_of. rewrite H3. reflexivity.
  - rewrite (compare_faces_matched v (<["threshold" := JNum t']> body)
               st0 st1 st2 img1 img2 detections1 detections2);
      rewrite ?H1', ?H2'; try assumption.
    unfold threshold_of. rewrite H3'. reflexivity.
  - intros Hlt. eapply lt_le_trans_r; eassumption.
Qed.

End Reports.

(** ** The further properties on the example platforms *)

Module Scenarios.
Import JSNumber.

Section OnFixture.
Import Fixture.
#[local] Existing Instance Fixture.platform.

(** [nobody.jpg] is not on the disk: as first image, and as second. *)
Lemma resolution_failure_gives_500_witness :
  compare_faces A true (files A "nobody.jpg" "person1.jpg") start =
    (Ok (internal_error_response
           {| message := "Failed to read local image file: ENOENT: no such file or directory, open '/srv/nobody.jpg'" |}),
     {| world := 1;
        trace := [EvLoadImage (JStr "nobody.jpg");
                  EvReadFile "/srv/nobody.jpg"] |}) /\
  compare_faces B true (files B "person1.jpg" "nobody.jpg") start =
    (Ok (internal_error_response
           {| message := "ENOENT: no such file or directory, open '/srv/nobody.jpg'" |}),
     {| world := 2;
        trace := [EvLoadImage (JStr "person1.jpg");
                  EvReadFile "/srv/person1.jpg"; EvDecode person1;
                  EvLoadImage (JStr "nobody.jpg");
                  EvReadFile "/srv/nobody.jpg"] |}).
Proof.
  split.
  - apply (proj1 (resolution_failure_gives_500 A
                    (files A "nobody.jpg" "person1.jpg") start _ _
                    eq_refl eq_refl)).
    reflexivity.
  - apply (proj1 (proj2 (resolution_failure_gives_500 B
                           (files B "person1.jpg" "nobody.jpg") start
                           (loaded "person1.jpg" person1 "" [] 1) _
                           eq_refl eq_refl)) person1).
    + reflexivity.
    + reflexivity.
Defined.

(** A body whose [image1] is the number 5. *)
Lemma non_string_image_gives_500_witness :
  exists e : JsError,
    compare_faces A true
      (<["image1" := JNum 5]> (<["image2" := JStr "person1.jpg"]> ∅)) start =
    (Ok (internal_error_response e),
     record
       [EvLoadImage
          (prop (<["image1" := JNum 5]>
                   (<["image2" := JStr "person1.jpg"]> ∅))
             (image1_field A))]
       start).
Proof.
  apply (non_string_image_gives_500 A
           (<["image1" := JNum 5]> (<["image2" := JStr "person1.jpg"]> ∅))
           start); reflexivity.
Defined.

(** The faces of [group.jpg] in another order. *)
Lemma loop_independent_of_order_witness :
  exists (best best' : Best),
    fst (forEach_best (FaceMatcher_new person1) group best_init start) =
      Ok best /\
    fst (forEach_best (FaceMatcher_new person1)
           [Byte.x14; Byte.x30; Byte.x0c; Byte.x14] best_init start) =
      Ok best' /\
    lt (snd best) (snd best') = false /\
    lt (snd best') (snd best) = false /\
    (forall threshold : JsValue,
       js_lt (snd best) threshold = js_lt (snd best') threshold).
Proof.
  apply (loop_independent_of_order (H := Fixture.platform) group
           [Byte.x14; Byte.x30; Byte.x0c; Byte.x14] person1 start).
  - apply perm_swap.
  - repeat constructor.
Defined.

Lemma strip_data_header_removes_one_header_witness :
  strip_data_header
    (String.append "data:image/png;base64," "data:image/png;base64,EFGH") =
    "data:image/png;base64,EFGH" /\
  strip_data_header "data:image/gif;base64,R0lG" =
    "data:image/gif;base64,R0lG".
Proof.
  split.
  - apply (proj1 (strip_data_header_removes_one_header
                    "data:image/png;base64,EFGH")).
    left. reflexivity.
  - apply (proj1 (proj2 (strip_data_header_removes_one_header
                           "data:image/gif;base64,R0lG"))).
    repeat constructor.
Defined.

(** A GIF sent as a data URI to variant A. *)
Lemma VariantA_decodes_unlisted_data_whole_witness :
  VariantA.loadImage (JStr "data:image/gif;base64,R0lG") start =
  decodeImage (Buffer_from_base64 "data:image/gif;base64,R0lG")
    (record [EvLoadImage (JStr "data:image/gif;base64,R0lG")] start).
Proof.
  apply (VariantA_decodes_unlisted_data_whole
           "data:image/gif;base64,R0lG" start).
  - reflexivity.
  - repeat constructor.
Defined.

(** A host that does not answer. *)
Lemma fetch_rejection_propagates_witness :
  loadImage B (JStr "https://example.org/x.jpg") start =
  (Throw {| message := "request to https://example.org/x.jpg failed" |},
   {| world := 1;
      trace := trace start
               ++ [EvLoadImage (JStr "https://example.org/x.jpg");
                   EvFetch "https://example.org/x.jpg"] |}).
Proof.
  apply (fetch_rejection_propagates B "https://example.org/x.jpg" start).
  - reflexivity.
  - reflexivity.
Defined.

Lemma loadImage_decodes_what_it_obtained_witness :
  loadImage A (JStr "https://example.com/pair.jpg") start =
    decodeImage [Byte.x10; Byte.x40]
      {| world := 1;
         trace := trace start
                  ++ [EvLoadImage (JStr "https://example.com/pair.jpg");
                      EvFetch "https://example.com/pair.jpg"] |} /\
  loadImage B (JStr "group.jpg") start =
    decodeImage group
      {| world := 1;
         trace := trace start
                  ++ [EvLoadImage (JStr "group.jpg");
                      EvReadFile (path_resolve "group.jpg")] |}.
Proof.
  split.
  - apply (proj1 (loadImage_decodes_what_it_obtained A
                    "https://example.com/pair.jpg" start
                    [Byte.x10; Byte.x40] 1)
             {| ok := true; statusText := "OK";
                arrayBuffer := Ok [Byte.x10; Byte.x40] |});
      reflexivity.
  - apply (proj2 (loadImage_decodes_what_it_obtained B "group.jpg" start
                    group 1)); reflexivity.
Defined.

Lemma VariantA_failed_fetch_witness :
  VariantA.loadImage (JStr "http://example.com/missing.jpg") start =
    (Throw {| message := "Failed to fetch image from URL: Not Found" |},
     {| world := 1;
        trace := trace start
                 ++ [EvLoadImage (JStr "http://example.com/missing.jpg");
                     EvFetch "http://example.com/missing.jpg"] |}) /\
  (prop (files A "http://example.com/missing.jpg" "person1.jpg") "image1" =
     JStr "http://example.com/missing.jpg" ->
   ToBoolean
     (prop (files A "http://example.com/missing.jpg" "person1.jpg") "image2") =
     true ->
   fst (compare_faces A true
          (files A "http://example.com/missing.jpg" "person1.jpg") start) =
     Ok (internal_error_response
           {| message := "Failed to fetch image from URL: Not Found" |})).
Proof.
  apply (VariantA_failed_fetch "http://example.com/missing.jpg" start
           {| ok := false; statusText := "Not Found";
              arrayBuffer := Ok [Byte.x3c; Byte.x68; Byte.x31; Byte.x3e] |}
           1 (files A "http://example.com/missing.jpg" "person1.jpg"));
    reflexivity.
Defined.

(** [group.jpg] against [person1.jpg]: without a threshold, and with
    the threshold [{"toString": 0}]. *)
Lemma comparison_steps_in_order_witness :
  (exists (resp : Response) (st' : St) (resolving : list Event),
     compare_faces A true (files A "group.jpg" "person1.jpg") start =
       (Ok resp, st') /\
     status resp = 200%Z /\
     trace st' =
       trace start ++ resolving
       ++ [EvDetect group; EvDetect person1; EvFaceMatcher person1]
       ++ List.map (fun d => EvFindBestMatch (descriptor d)) group /\
     Forall (fun ev => is_resolver_event ev = true) resolving) /\
  (exists (resp : Response) (st' : St) (resolving : list Event),
     compare_faces A true
       (with_threshold (JObj [("toString", JNum 0)])
          (files A "group.jpg" "person1.jpg")) start =
       (Ok resp, st') /\
     status resp = 500%Z /\
     trace st' =
       trace start ++ resolving
       ++ [EvDetect group; EvDetect person1; EvFaceMatcher person1]
       ++ List.map (fun d => EvFindBestMatch (descriptor d)) group /\
     Forall (fun ev => is_resolver_event ev = true) resolving).
Proof.
  split.
  - apply (comparison_steps_in_order A
             (files A "group.jpg" "person1.jpg") start
             (loaded "group.jpg" group "" [] 1)
             (loaded "group.jpg" group "person1.jpg" person1 2)
             group person1 group person1);
      first [reflexivity | cbn; discriminate].
  - apply (comparison_steps_in_order A
             (with_threshold (JObj [("toString", JNum 0)])
                (files A "group.jpg" "person1.jpg")) start
             (loaded "group.jpg" group "" [] 1)
             (loaded "group.jpg" group "person1.jpg" person1 2)
             group person1 group person1);
      first [reflexivity | cbn; discriminate].
Defined.


(** [person1.jpg] against itself: distance 0, a match at 0.6. *)
Lemma match_has_a_witness_witness :
  exists (i : nat) (d1 : Detection),
    person1 !! i = Some d1 /\
    field "distance"
      (payload (match_response true 0 (JNum default_threshold) 1 1)) =
      JNum (nn_distance person1 d1) /\
    js_lt (nn_distance person1 d1)
      (threshold_of (files A "person1.jpg" "person1.jpg")) = Ok true /\
    lt (nn_distance person1 d1) Infinity = true /\
    (forall j d', person1 !! j = Some d' ->
       lt (nn_distance person1 d') (nn_distance person1 d1) = false).
Proof.
  apply (match_has_a_witness A
           (files A "person1.jpg" "person1.jpg") start
           (loaded "person1.jpg" person1 "" [] 1)
           (loaded "person1.jpg" person1 "person1.jpg" person1 2)
           person1 person1 person1 person1)
    with (st' := snd (compare_faces A true
                        (files A "person1.jpg" "person1.jpg") start));
    first [reflexivity | cbn; discriminate].
Defined.

Lemma reported_distance_not_negative_witness :
  exists (resp : Response) (st' : St) (dist : float),
    compare_faces A true (files A "group.jpg" "person1.jpg") start =
      (Ok resp, st') /\
    status resp = 200%Z /\
    field "distance" (payload resp) = JNum dist /\
    eq dist dist = true /\
    le zero dist = true /\
    (lt dist Infinity = true ->
     exists w : float,
       field "distance" (wire_body resp) = JNum w /\
       eq w dist = true /\ le zero w = true) /\
    (lt dist Infinity = false ->
     field "distance" (wire_body resp) = JNull).
Proof.
  apply (reported_distance_not_negative A
           (files A "group.jpg" "person1.jpg") start
           (loaded "group.jpg" group "" [] 1)
           (loaded "group.jpg" group "person1.jpg" person1 2)
           group person1 group person1);
    try first [reflexivity | cbn; discriminate].
  repeat constructor.
Defined.

(** [person1.jpg] against [person2.jpg], distance 2: thresholds 2.5
    and 3. *)
Lemma raising_threshold_keeps_match_witness :
  exists (dist : float) (isMatch isMatch' : bool) (st' : St),
    compare_faces A true
      (<["threshold" := JNum 2.5]> (files A "person1.jpg" "person2.jpg"))
      start =
      (Ok (match_response isMatch dist (JNum 2.5) 1 1), st') /\
    compare_faces A true
      (<["threshold" := JNum 3]> (files A "person1.jpg" "person2.jpg"))
      start =
      (Ok (match_response isMatch' dist (JNum 3) 1 1), st') /\
    (isMatch = true -> isMatch' = true).
Proof.
  apply (raising_threshold_keeps_match A
           (files A "person1.jpg" "person2.jpg") start
           (loaded "person1.jpg" person1 "" [] 1)
           (loaded "person1.jpg" person1 "person2.jpg" person2 2)
           person1 person2 person1 person2);
    first [reflexivity | cbn; discriminate].
Defined.

End OnFixture.

Section OnFaulty.
Import Faulty.
#[local] Existing Instance Faulty.platform.

(** The pipeline throws on [landscape.jpg]: as first image, and as
    second. *)
Lemma detection_failure_gives_500_witness :
  compare_faces A true (files A "landscape.jpg" "person1.jpg") start =
    (Ok (internal_error_response
           {| message := "Error: Pass a tensor to the detection net" |}),
     record [EvDetect Fixture.landscape]
       (loaded "landscape.jpg" Fixture.landscape
          "person1.jpg" Fixture.person1 2)) /\
  compare_faces A true (files A "person1.jpg" "landscape.jpg") start =
    (Ok (internal_error_response
           {| message := "Error: Pass a tensor to the detection net" |}),
     record [EvDetect Fixture.person1; EvDetect Fixture.landscape]
       (loaded "person1.jpg" Fixture.person1
          "landscape.jpg" Fixture.landscape 2)).
Proof.
  split.
  - apply (proj1 (detection_failure_gives_500 A
                    (files A "landscape.jpg" "person1.jpg") start
                    (loaded "landscape.jpg" Fixture.landscape "" [] 1)
                    (loaded "landscape.jpg" Fixture.landscape
                       "person1.jpg" Fixture.person1 2)
                    Fixture.landscape Fixture.person1
                    {| message := "Error: Pass a tensor to the detection net" |}
                    eq_refl eq_refl eq_refl eq_refl)).
    reflexivity.
  - apply (proj2 (detection_failure_gives_500 A
                    (files A "person1.jpg" "landscape.jpg") start
                    (loaded "person1.jpg" Fixture.person1 "" [] 1)
                    (loaded "person1.jpg" Fixture.person1
                       "landscape.jpg" Fixture.landscape 2)
                    Fixture.person1 Fixture.landscape
                    {| message := "Error: Pass a tensor to the detection net" |}
                    eq_refl eq_refl eq_refl eq_refl) Fixture.person1).
    + reflexivity.
    + reflexivity.
Defined.

(** A matcher that only returns [NaN]. *)
Lemma degenerate_distances_never_match_witness :
  exists resp : Response,
    compare_faces A true
      (<["threshold" := JNum 1000]> (files A "person1.jpg" "person2.jpg"))
      start =
    (Ok resp,
     record ([EvDetect Fixture.person1; EvDetect Fixture.person2;
              EvFaceMatcher Fixture.person2] ++ match_events Fixture.person1)
       (loaded "person1.jpg" Fixture.person1 "person2.jpg"
          Fixture.person2 2)) /\
    resp = match_response false Infinity
             (threshold_of
                (<["threshold" := JNum 1000]>
                   (files A "person1.jpg" "person2.jpg")))
             (length Fixture.person1) (length Fixture.person2) /\
    status resp = 200%Z /\
    field "match" (wire_body resp) = JBool false /\
    field "distance" (wire_body resp) = JNull.
Proof.
  apply (degenerate_distances_never_match A
           (<["threshold" := JNum 1000]> (files A "person1.jpg" "person2.jpg"))
           start
           (loaded "person1.jpg" Fixture.person1 "" [] 1)
           (loaded "person1.jpg" Fixture.person1 "person2.jpg"
              Fixture.person2 2)
           Fixture.person1 Fixture.person2 Fixture.person1 Fixture.person2);
    try first [reflexivity | cbn; discriminate].
  repeat constructor.
Defined.

End OnFaulty.

End Scenarios.
